(** * The spreadsheet ingestion pipeline: worker, store and retry

    A shallow embedding of [src/services/JobQueue.ts]
    ([BullJobQueue.handleExcelJob]), of the retry path of
    [src/services/FileProcessingService.ts] and of the retry endpoint of
    [src/controllers/rest/FileController.ts].

    JavaScript cell values are an inductive type, the Prisma tables and the
    Bull queue are fields of an explicit [World], and an [async] function is
    a state-passing computation that either resolves or rejects. *)

From stdpp Require Import gmap strings list fin_maps pretty sorting.

Open Scope string_scope.
Open Scope list_scope.

(** ** Cell values *)

(** A JavaScript number as a spreadsheet cell holds it: an integer, or a
    non-integral double, which is carried by the decimal text that
    [String(value)] prints for it. *)
Inductive JsNumber :=
  | NInt (z : Z)
  | NFrac (digits : string).

(** The values [xlsx.utils.sheet_to_json(worksheet, { header: 1 })] places in
    a row array: a hole reads as [undefined], an error cell as [null], and
    the other cells as the boolean, number or string they hold.  The workbook
    is read by [xlsx.readFile(fileUrl)], without the [cellDates] option, so
    the row arrays hold no [Date] object. *)
Inductive JsValue :=
  | JUndefined
  | JNull
  | JBoolean (b : bool)
  | JNumber (n : JsNumber)
  | JString (s : string).

(** A cell that holds a date or a time: read without [cellDates], it reaches
    the row array as its serial number (the days since the 1900 epoch). *)
Definition temporal (serial : JsNumber) : JsValue := JNumber serial.

#[global] Instance JsNumber_eq_dec : EqDecision JsNumber.
Proof. solve_decision. Defined.

#[global] Instance JsValue_eq_dec : EqDecision JsValue.
Proof. solve_decision. Defined.

(** [typeof value] *)
Definition typeof (v : JsValue) : string :=
  match v with
  | JUndefined => "undefined"
  | JNull => "object"
  | JBoolean _ => "boolean"
  | JNumber _ => "number"
  | JString _ => "string"
  end.

(** [String(value)] *)
Definition String_ (v : JsValue) : string :=
  match v with
  | JUndefined => "undefined"
  | JNull => "null"
  | JBoolean true => "true"
  | JBoolean false => "false"
  | JNumber (NInt z) => pretty z
  | JNumber (NFrac digits) => digits
  | JString s => s
  end.

(** [a === b] *)
Definition strictEq (a b : JsValue) : bool :=
  match a, b with
  | JUndefined, JUndefined => true
  | JNull, JNull => true
  | JBoolean x, JBoolean y => bool_decide (x = y)
  | JNumber x, JNumber y => bool_decide (x = y)
  | JString x, JString y => bool_decide (x = y)
  | _, _ => false
  end.

(** [a !== b] *)
Definition strictNe (a b : JsValue) : bool := negb (strictEq a b).

(** ** Entities *)

Inductive FileProcessingStatus :=
  | PENDING
  | IN_PROGRESS
  | COMPLETED
  | FAILED
  | CANCELLED.

#[global] Instance FileProcessingStatus_eq_dec : EqDecision FileProcessingStatus.
Proof. solve_decision. Defined.

Module FILE_MESSAGES.
Definition FILE_NOT_FOUND : string := "File not found".
Definition NO_DATA_FOUND : string := "No data found in the Excel file".
End FILE_MESSAGES.

(** A row of the [fileProcessing] table, with the columns the worker and the
    retry path read or write; the table maps the primary key [id] to the
    other columns.  Nullable columns are options; [completedAt] is a
    timestamp. *)
Record FileProcessing := mkFileProcessing {
  userId : Z;
  fileUrl : string;
  status : FileProcessingStatus;
  retryCount : nat;
  totalRows : option nat;
  processedRows : option nat;
  errorMessage : option string;
  completedAt : option nat
}.

(** A row of the [processedData] table as the worker builds it.
    [columnName] is the header cell ([headers] is [data[0] as string[]], a
    cast that does not convert). *)
Record ProcessedData := mkProcessedData {
  fileProcessingId : Z;
  rowNumber : nat;
  columnName : JsValue;
  value : string;
  dataType : string
}.

#[global] Instance ProcessedData_eq_dec : EqDecision ProcessedData.
Proof. solve_decision. Defined.

(** [interface ExcelJobData]; [fileProcessingId] is carried as the integer
    that [parseInt(fileProcessingId)] recovers from [id.toString()]. *)
Record ExcelJobData := mkExcelJobData {
  jd_fileUrl : string;
  jd_fileProcessingId : Z;
  jd_retryCount : option nat
}.

(** What a [throw] carries: an [Error] with its message, or anything else. *)
Inductive Thrown :=
  | ErrorObj (message : string)
  | NonError.

(** ** The world the services run in *)

(** Modelled from the spec: the Prisma schema is not among the sources.  The
    spec's Job Record Store holds the two entities of its data model and
    leaves the uniqueness of [(rowNumber, columnName)] to the worker (upsert
    or clearing), so [processedData] is a table in insertion order without a
    uniqueness constraint.

    [queue] logs the jobs handed to Bull, [files] gives for a path the array
    of arrays that reading its first sheet yields, [faults] schedules the
    failures of the coming store and queue calls (a head [(n, e)] lets [n]
    calls through and makes the next one reject with [e]; with an empty
    schedule every call goes through), and [clock] is what [new Date()]
    reads. *)
Record World := mkWorld {
  fileProcessing : gmap Z FileProcessing;
  processedData : list ProcessedData;
  queue : list (string * ExcelJobData);
  files : gmap string (list (list JsValue));
  faults : list (nat * Thrown);
  clock : nat
}.

Definition set_fileProcessing (f : gmap Z FileProcessing → gmap Z FileProcessing)
    (w : World) : World :=
  mkWorld (f (fileProcessing w)) (processedData w) (queue w) (files w)
          (faults w) (clock w).

Definition set_processedData (f : list ProcessedData → list ProcessedData)
    (w : World) : World :=
  mkWorld (fileProcessing w) (f (processedData w)) (queue w) (files w)
          (faults w) (clock w).

Definition set_queue (f : list (string * ExcelJobData) → list (string * ExcelJobData))
    (w : World) : World :=
  mkWorld (fileProcessing w) (processedData w) (f (queue w)) (files w)
          (faults w) (clock w).

Definition set_faults (fs : list (nat * Thrown)) (w : World) : World :=
  mkWorld (fileProcessing w) (processedData w) (queue w) (files w) fs (clock w).

(** ** Asynchronous computations *)

Inductive Outcome (A : Type) :=
  | Resolved (a : A)
  | Rejected (e : Thrown).
Arguments Resolved {A} a.
Arguments Rejected {A} e.

Definition Async (A : Type) : Type := World → Outcome A * World.

#[global] Instance Async_ret : MRet Async := λ A a w, (Resolved a, w).

#[global] Instance Async_bind : MBind Async := λ A B k m w,
  match m w with
  | (Resolved a, w') => k a w'
  | (Rejected e, w') => (Rejected e, w')
  end.

Definition throw {A} (e : Thrown) : Async A := λ w, (Rejected e, w).

(** [try { body } catch (error) { handler error }] *)
Definition try_catch {A} (body : Async A) (handler : Thrown → Async A) : Async A :=
  λ w,
    match body w with
    | (Resolved a, w') => (Resolved a, w')
    | (Rejected e, w') => handler e w'
    end.

(** Every call that leaves the process consults the fault schedule first. *)
Definition externalCall : Async unit := λ w,
  match faults w with
  | (0, e) :: rest => (Rejected e, set_faults rest w)
  | (S n, e) :: rest => (Resolved (), set_faults ((n, e) :: rest) w)
  | [] => (Resolved (), w)
  end.

(** ** The store, the queue and the file reader *)

(** A step on the world that is not itself a call. *)
Definition effect {A} (f : World → Outcome A * World) : Async A := f.

Module prisma.

(** [prisma.fileProcessing.update({ where: { id }, data })]: [data] is the
    function that overwrites the listed columns.  Prisma rejects when no row
    has the id. *)
Definition fileProcessing_update (id : Z) (data : FileProcessing → FileProcessing)
    : Async unit :=
  externalCall ;;
  effect (λ w,
    match fileProcessing w !! id with
    | Some r => (Resolved (), set_fileProcessing (insert id (data r)) w)
    | None => (Rejected (ErrorObj "Record to update not found."), w)
    end).

(** The row selected by [where: { id, userId }], if there is one. *)
Definition whereIdUser (id user : Z) (w : World) : option FileProcessing :=
  match fileProcessing w !! id with
  | Some r => if bool_decide (userId r = user) then Some r else None
  | None => None
  end.

(** [prisma.fileProcessing.findFirst({ where: { id, userId } })] *)
Definition fileProcessing_findFirst (id user : Z) : Async (option FileProcessing) :=
  externalCall ;;
  effect (λ w, (Resolved (whereIdUser id user w), w)).

(** [prisma.processedData.createMany({ data: batch })] *)
Definition processedData_createMany (batch : list ProcessedData) : Async unit :=
  externalCall ;;
  effect (λ w, (Resolved (), set_processedData (λ t, t ++ batch) w)).

(** [prisma.processedData.deleteMany({ where: { fileProcessingId } })] *)
Definition processedData_deleteMany (id : Z) : Async unit :=
  externalCall ;;
  effect (λ w,
    (Resolved (), set_processedData (filter (λ r, fileProcessingId r ≠ id)) w)).

End prisma.

(** [BullJobQueue.addJob(name, data)]: the job joins the queue and gets the
    next id. *)
Definition addJob (name : string) (data : ExcelJobData) : Async nat :=
  externalCall ;;
  effect (λ w,
    (Resolved (S (length (queue w))), set_queue (λ q, q ++ [(name, data)]) w)).

(** [xlsx.readFile(fileUrl)] followed by
    [xlsx.utils.sheet_to_json(worksheet, { header: 1 })] on the first sheet. *)
Definition readSheet (url : string) : Async (list (list JsValue)) := λ w,
  match files w !! url with
  | Some data => (Resolved data, w)
  | None => (Rejected (ErrorObj "ENOENT: no such file or directory"), w)
  end.

(** [new Date()] *)
Definition newDate : Async nat := λ w, (Resolved (clock w), w).

(** ** The worker: [BullJobQueue.handleExcelJob] *)

(** The column updates the worker sends. *)
Definition markInProgress (retries : nat) (r : FileProcessing) : FileProcessing :=
  mkFileProcessing (userId r) (fileUrl r) IN_PROGRESS retries
    (totalRows r) (processedRows r) (errorMessage r) (completedAt r).

Definition setTotalRows (n : nat) (r : FileProcessing) : FileProcessing :=
  mkFileProcessing (userId r) (fileUrl r) (status r) (retryCount r)
    (Some n) (processedRows r) (errorMessage r) (completedAt r).

Definition setProcessedRows (n : nat) (r : FileProcessing) : FileProcessing :=
  mkFileProcessing (userId r) (fileUrl r) (status r) (retryCount r)
    (totalRows r) (Some n) (errorMessage r) (completedAt r).

Definition markCompleted (n now : nat) (r : FileProcessing) : FileProcessing :=
  mkFileProcessing (userId r) (fileUrl r) COMPLETED (retryCount r)
    (totalRows r) (Some n) (errorMessage r) (Some now).

Definition markFailed (msg : string) (r : FileProcessing) : FileProcessing :=
  mkFileProcessing (userId r) (fileUrl r) FAILED (retryCount r)
    (totalRows r) (processedRows r) (Some msg) (completedAt r).

(** [value !== undefined && value !== null && value !== ''] *)
Definition hasValue (v : JsValue) : bool :=
  strictNe v JUndefined && strictNe v JNull && strictNe v (JString "").

(** [array[index]]: reading past the end gives [undefined]. *)
Definition at_ (array : list JsValue) (index : nat) : JsValue :=
  default JUndefined (array !! index).

(** The object pushed for one cell. *)
Definition cellRecord (id : Z) (rowIndex : nat) (columnName v : JsValue)
    : ProcessedData :=
  mkProcessedData id (rowIndex + 1) columnName (String_ v) (typeof v).

(** [for (let colIndex = 0; colIndex < headers.length; colIndex++)], run over
    the indexes [colIndex] takes; [acc] is [processedData]. *)
Fixpoint colLoop (id : Z) (headers row : list JsValue) (rowIndex : nat)
    (colIndexes : list nat) (acc : list ProcessedData) : list ProcessedData :=
  match colIndexes with
  | [] => acc
  | colIndex :: rest =>
      let columnName := at_ headers colIndex in
      let v := at_ row colIndex in
      colLoop id headers row rowIndex rest
        (if hasValue v then acc ++ [cellRecord id rowIndex columnName v] else acc)
  end.

(** [for (let rowIndex = 1; rowIndex < data.length; rowIndex++)], run over the
    indexes [rowIndex] takes; the accumulators are [processedData] and
    [processedCount]. *)
Fixpoint rowLoop (id : Z) (data : list (list JsValue)) (headers : list JsValue)
    (rowIndexes : list nat) (acc : list ProcessedData) (processedCount : nat)
    : Async (list ProcessedData * nat) :=
  match rowIndexes with
  | [] => mret (acc, processedCount)
  | rowIndex :: rest =>
      let row := default [] (data !! rowIndex) in
      let acc := colLoop id headers row rowIndex (seq 0 (length headers)) acc in
      let processedCount := S processedCount in
      (if bool_decide (processedCount mod 10 = 0)
       then prisma.fileProcessing_update id (setProcessedRows processedCount)
       else mret ()) ;;
      rowLoop id data headers rest acc processedCount
  end.

Definition batchSize : nat := 100.

(** [processedData.slice(i, j)] *)
Definition slice {A} (i j : nat) (l : list A) : list A := take (j - i) (drop i l).

(** The values [i] takes in [for (let i = 0; i < n; i += batchSize)]. *)
Definition batchStarts (n : nat) : list nat :=
  (λ k, k * batchSize) <$> seq 0 ((n + (batchSize - 1)) / batchSize).

Fixpoint batchLoop (records : list ProcessedData) (starts : list nat) : Async unit :=
  match starts with
  | [] => mret ()
  | i :: rest =>
      prisma.processedData_createMany (slice i (i + batchSize) records) ;;
      batchLoop records rest
  end.

(** [data[0]] *)
Definition headerRow (data : list (list JsValue)) : list JsValue :=
  default [] (data !! 0).

(** The [try] block. *)
Definition processExcel (job : ExcelJobData) : Async nat :=
  let id := jd_fileProcessingId job in
  let retries := default 0 (jd_retryCount job) in
  prisma.fileProcessing_update id (markInProgress retries) ;;
  data ← readSheet (jd_fileUrl job) ;
  if bool_decide (length data = 0)
  then throw (ErrorObj FILE_MESSAGES.NO_DATA_FOUND)
  else
    let headers := headerRow data in
    let total := length data - 1 in
    prisma.fileProcessing_update id (setTotalRows total) ;;
    '(records, processedCount) ← rowLoop id data headers (seq 1 (length data - 1)) [] 0 ;
    batchLoop records (batchStarts (length records)) ;;
    now ← newDate ;
    prisma.fileProcessing_update id (markCompleted processedCount now) ;;
    mret processedCount.

(** [error instanceof Error ? error.message : 'Unknown error'] *)
Definition errorText (e : Thrown) : string :=
  match e with
  | ErrorObj message => message
  | NonError => "Unknown error"
  end.

(** The [catch] block: mark the job failed, then rethrow. *)
Definition onFailure (job : ExcelJobData) (e : Thrown) : Async nat :=
  prisma.fileProcessing_update (jd_fileProcessingId job) (markFailed (errorText e)) ;;
  throw e.

Definition handleExcelJob (job : ExcelJobData) : Async nat :=
  try_catch (processExcel job) (onFailure job).

(** Bull hands a job whose handler rejected to the handler again, as long as
    attempts remain ([attempts: 3] is two redeliveries); the handler's last
    outcome is the job's. *)
Fixpoint redeliver (retries : nat) (job : ExcelJobData) : Async nat :=
  match retries with
  | 0 => handleExcelJob job
  | S n => try_catch (handleExcelJob job) (λ _, redeliver n job)
  end.

Definition attempts : nat := 3.

Definition deliver (job : ExcelJobData) : Async nat := redeliver (attempts - 1) job.

(** ** The retry path *)

Module FileProcessingService.

(** Each method's [catch] logs and rethrows, which leaves the computation as
    it is.  [getFileStatus] returns the row it found, of which the controller
    reads [status]. *)
Definition getFileStatus (id user : Z) : Async (option FileProcessing) :=
  prisma.fileProcessing_findFirst id user.

Definition clearProcessedData (id user : Z) : Async unit :=
  found ← prisma.fileProcessing_findFirst id user ;
  match found with
  | None => throw (ErrorObj FILE_MESSAGES.FILE_NOT_FOUND)
  | Some _ => prisma.processedData_deleteMany id
  end.

(** The [data] of the update that resets the row. *)
Definition resetToPending (r : FileProcessing) : FileProcessing :=
  mkFileProcessing (userId r) (fileUrl r) PENDING (retryCount r)
    None None None None.

Definition retryFileProcessing (id user : Z) : Async (nat * Z) :=
  found ← prisma.fileProcessing_findFirst id user ;
  match found with
  | None => throw (ErrorObj FILE_MESSAGES.FILE_NOT_FOUND)
  | Some row =>
      prisma.fileProcessing_update id resetToPending ;;
      jobId ← addJob "process-excel-retry" (mkExcelJobData (fileUrl row) id None) ;
      mret (jobId, id)
  end.

End FileProcessingService.

Module FileController.

(** What the endpoint answers: [response_success] (200) with the new job, or
    an error status with its message. *)
Inductive Response :=
  | response_success (jobId : nat) (fileProcessingId : Z)
  | response_error (code : nat) (message : string).

(** [POST /files/:id/retry]; [user] is [req.user], [id] is [req.params.id]. *)
Definition retryFileProcessing (user : option Z) (id : Z) : Async Response :=
  try_catch
    (match user with
     | None => mret (response_error 401 "Authentication required")
     | Some u =>
         fileStatus ← FileProcessingService.getFileStatus id u ;
         match fileStatus with
         | None => mret (response_error 404 FILE_MESSAGES.FILE_NOT_FOUND)
         | Some row =>
             if bool_decide (status row ≠ FAILED)
             then mret (response_error 400 "File can only be retried if it failed")
             else
               FileProcessingService.clearProcessedData id u ;;
               '(jobId, fileProcessingId) ← FileProcessingService.retryFileProcessing id u ;
               mret (response_success jobId fileProcessingId)
         end
     end)
    (λ _, mret (response_error 500 "Internal server error")).

End FileController.

(** ** The sheet seen as cells *)

(** A cell is blank when it is [undefined], [null] or the empty string. *)
Definition blank (v : JsValue) : Prop :=
  v = JUndefined ∨ v = JNull ∨ v = JString "".

#[global] Instance blank_dec v : Decision (blank v).
Proof. unfold blank. apply _. Defined.

(** The coordinates [(rowIndex, colIndex)] of the cells below the header row
    and under a header column, in reading order. *)
Definition dataCells (data : list (list JsValue)) : list (nat * nat) :=
  rowIndex ← seq 1 (length data - 1) ;
  pair rowIndex <$> seq 0 (length (headerRow data)).

Definition cellAt (data : list (list JsValue)) (rc : nat * nat) : JsValue :=
  at_ (default [] (data !! rc.1)) rc.2.

(** The record that stands for the cell at [rc]. *)
Definition recordOf (id : Z) (data : list (list JsValue)) (rc : nat * nat)
    : ProcessedData :=
  cellRecord id rc.1 (at_ (headerRow data) rc.2) (cellAt data rc).

(** What the column loop pushes while [rowIndex] is the current row. *)
Definition rowRecords (id : Z) (data : list (list JsValue)) (rowIndex : nat)
    : list ProcessedData :=
  colLoop id (headerRow data) (default [] (data !! rowIndex)) rowIndex
    (seq 0 (length (headerRow data))) [].

(** The [(rowNumber, columnName)] pairs stored for a job. *)
Definition storedKeys (id : Z) (w : World) : list (nat * JsValue) :=
  (λ r, (rowNumber r, columnName r)) <$>
    filter (λ r, fileProcessingId r = id) (processedData w).

(** A row with its progress column replaced. *)
Definition withProcessedRows (p : option nat) (r : FileProcessing) : FileProcessing :=
  mkFileProcessing (userId r) (fileUrl r) (status r) (retryCount r)
    (totalRows r) p (errorMessage r) (completedAt r).

(** The row a run leaves that went through to the end on a sheet with [n]
    rows below the header: the worker's three updates in turn. *)
Definition completedRow (job : ExcelJobData) (n now : nat) (r : FileProcessing)
    : FileProcessing :=
  markCompleted n now
    (setTotalRows n (markInProgress (default 0 (jd_retryCount job)) r)).

(** ** Sample inputs *)

Definition sampleRow : FileProcessing :=
  mkFileProcessing 1 "upload.xlsx" PENDING 0 None None None None.

Definition sampleJob : ExcelJobData := mkExcelJobData "upload.xlsx" 7 None.

(** A store with the one job 7, no records yet, and the upload on disk. *)
Definition sampleWorld (sheet : list (list JsValue)) (fs : list (nat * Thrown))
    : World :=
  mkWorld {[ 7%Z := sampleRow ]} [] [] {[ "upload.xlsx" := sheet ]} fs 1000.

Definition outage : Thrown := ErrorObj "store unavailable".

Definition peopleSheet : list (list JsValue) :=
  [ [JString "ID"; JString "Name"];
    [JNumber (NInt 1); JString "Alice"];
    [JString ""; JString "Bob"] ].

Definition oneRowSheet : list (list JsValue) :=
  [ [JString "A"]; [JString "x"] ].

Definition headerOnlySheet : list (list JsValue) :=
  [ [JString "ID"; JString "Name"] ].

(** A sheet whose one data cell holds the date 2025-11-04. *)
Definition dateSheet : list (list JsValue) :=
  [ [JString "When"]; [temporal (NInt 45965)] ].

Definition tenRowSheet : list (list JsValue) :=
  [JString "A"] :: replicate 10 [JString "x"].

Definition edgeSheet : list (list JsValue) :=
  [ [JString "A"; JString "B"; JString "C"];
    [JString " "; JNumber (NInt 0); JBoolean false];
    [JUndefined; JNull; JString ""] ].

(** The two tables and the queue of [w1] are those of [w]. *)
Definition sameStore (w w1 : World) : Prop :=
  fileProcessing w1 = fileProcessing w
  ∧ processedData w1 = processedData w
  ∧ queue w1 = queue w.

(** A job whose last run failed, with two records of that run in the store
    next to a record of another job. *)
Definition failedRow : FileProcessing :=
  mkFileProcessing 1 "upload.xlsx" FAILED 0 (Some 2) None
    (Some "store unavailable") None.

Definition failedWorld (r : FileProcessing) : World :=
  mkWorld {[ 7%Z := r ]}
    [ mkProcessedData 7 2 (JString "ID") "1" "number";
      mkProcessedData 8 2 (JString "ID") "5" "number";
      mkProcessedData 7 2 (JString "Name") "Alice" "string" ]
    [] {[ "upload.xlsx" := peopleSheet ]} [] 2000.

(** ** The other endpoints: status, records, deletion *)

(** More calls on the store and the disk. *)
Module store.

(** What [prisma.processedData.findMany({ where: { fileProcessingId },
    orderBy: [{ rowNumber: 'asc' }, { columnName: 'asc' }], skip, take })]
    answers from the table: the database's business (its collation decides
    the order of column names, its validation what a negative [skip] or
    [take] does), so a parameter of the service. *)
Definition FindMany : Type :=
  Z → Z → Z → list ProcessedData → Outcome (list ProcessedData).

(** The database orders the records of the job with [orderBy] and answers
    a window with [skip] and [take] that are not negative by skipping and
    taking from the front. *)
Definition windowed (findMany : FindMany)
    (orderBy : list ProcessedData → list ProcessedData) : Prop :=
  (∀ l, orderBy l ≡ₚ l)
  ∧ ∀ id skip n table,
      (0 ≤ skip)%Z → (0 ≤ n)%Z →
      findMany id skip n table
      = Resolved (take (Z.to_nat n)
                    (drop (Z.to_nat skip)
                       (orderBy (filter (λ r, fileProcessingId r = id) table)))).

Definition processedData_findMany (findMany : FindMany) (id skip n : Z)
    : Async (list ProcessedData) :=
  externalCall ;;
  effect (λ w, (findMany id skip n (processedData w), w)).

(** [prisma.processedData.count({ where: { fileProcessingId } })] *)
Definition processedData_count (id : Z) : Async nat :=
  externalCall ;;
  effect (λ w,
    (Resolved (length (filter (λ r, fileProcessingId r = id) (processedData w))), w)).

(** Modelled from the spec: the Prisma schema is not among the sources.
    The records are a relation of the job that is cascade-deleted with it
    (the service's comment expects the same), so
    [prisma.fileProcessing.delete({ where: { id } })] removes the row and the
    records of the job; Prisma rejects when no row has the id. *)
Definition fileProcessing_delete (id : Z) : Async unit :=
  externalCall ;;
  effect (λ w,
    match fileProcessing w !! id with
    | Some _ =>
        (Resolved (),
         mkWorld (delete id (fileProcessing w))
           (filter (λ r, fileProcessingId r ≠ id) (processedData w))
           (queue w) (files w) (faults w) (clock w))
    | None => (Rejected (ErrorObj "Record to delete does not exist."), w)
    end).

(** [fs.existsSync(path)] *)
Definition existsSync (path : string) : Async bool :=
  effect (λ w, (Resolved (bool_decide (is_Some (files w !! path))), w)).

(** [fs.unlinkSync(path)]; [throws] says whether the operating system
    refuses this removal. *)
Definition unlinkSync (throws : bool) (path : string) : Async unit :=
  if throws
  then throw (ErrorObj "EPERM: operation not permitted, unlink")
  else
    effect (λ w,
      (Resolved (),
       mkWorld (fileProcessing w) (processedData w) (queue w)
         (delete path (files w)) (faults w) (clock w))).

End store.

(** [x || undefined] on a nullable count: [null] and [0] both give
    [undefined]. *)
Definition countOrUndefined (x : option nat) : option nat :=
  match x with
  | Some 0 => None
  | _ => x
  end.

(** [x || undefined] on a nullable string: [null] and [''] both give
    [undefined]. *)
Definition textOrUndefined (x : option string) : option string :=
  match x with
  | Some "" => None
  | _ => x
  end.

(** [interface FileProcessingJobDTO], with the fields the row model carries;
    an optional field that is [undefined] is [None]. *)
Record FileProcessingJobDTO := mkFileProcessingJobDTO {
  dto_id : Z;
  dto_userId : Z;
  dto_fileUrl : string;
  dto_status : FileProcessingStatus;
  dto_totalRows : option nat;
  dto_processedRows : option nat;
  dto_errorMessage : option string;
  dto_completedAt : option nat
}.

(** What [parseInt] makes of [query.page] and [query.rows]: an integer, or
    NaN ([None]) when the parameter is absent or not a number. *)
Record PageQuery := mkPageQuery {
  q_page : option Z;
  q_rows : option Z
}.

(** [parseInt(x) || d]: NaN and 0 give [d]. *)
Definition orElse (x : option Z) (d : Z) : Z :=
  match x with
  | None => d
  | Some 0%Z => d
  | Some n => n
  end.

(** The methods of [FileProcessingService] that read and delete. *)
Module Service.

(** The object [getFileStatus] returns for the row it found ([completedAt]
    is a [Date], which [||] keeps). *)
Definition toDTO (id : Z) (r : FileProcessing) : FileProcessingJobDTO :=
  mkFileProcessingJobDTO id (userId r) (fileUrl r) (status r)
    (countOrUndefined (totalRows r)) (countOrUndefined (processedRows r))
    (textOrUndefined (errorMessage r)) (completedAt r).

Definition getFileStatus (id user : Z) : Async (option FileProcessingJobDTO) :=
  row ← FileProcessingService.getFileStatus id user ;
  mret (toDTO id <$> row).

(** [Math.min(parseInt(query.rows) || 50, 1000)] *)
Definition pageSize (query : PageQuery) : Z :=
  Z.min (orElse (q_rows query) 50) 1000.

Definition getProcessedData (findMany : store.FindMany) (id user : Z)
    (query : PageQuery) : Async (list ProcessedData * nat) :=
  let page := orElse (q_page query) 1 in
  let rows := pageSize query in
  let skip := ((page - 1) * rows)%Z in
  found ← prisma.fileProcessing_findFirst id user ;
  match found with
  | None => throw (ErrorObj FILE_MESSAGES.FILE_NOT_FOUND)
  | Some _ =>
      data ← store.processedData_findMany findMany id skip rows ;
      total ← store.processedData_count id ;
      mret (data, total)
  end.

(** [fileProcessing.fileUrl && fs.existsSync(fileProcessing.fileUrl)] *)
Definition onDisk (path : string) : Async bool :=
  if bool_decide (path ≠ "") then store.existsSync path else mret false.

(** The [try] around [fs.unlinkSync]: a failure is logged, not rethrown. *)
Definition unlinkLogged (unlinkThrows : bool) (path : string) : Async unit :=
  try_catch (store.unlinkSync unlinkThrows path) (λ _, mret ()).

Definition deleteFile (unlinkThrows : bool) (id user : Z) : Async unit :=
  found ← prisma.fileProcessing_findFirst id user ;
  match found with
  | None => throw (ErrorObj FILE_MESSAGES.FILE_NOT_FOUND)
  | Some row =>
      there ← onDisk (fileUrl row) ;
      (if there : bool then unlinkLogged unlinkThrows (fileUrl row) else mret ()) ;;
      store.fileProcessing_delete id
  end.

End Service.

(** The endpoints of [FileController] next to the retry endpoint. *)
Module Controller.

(** What an endpoint answers: [response_success] (200) with its content, or
    an error status with its message. *)
Inductive Reply (A : Type) :=
  | reply_success (content : A)
  | reply_error (code : nat) (message : string).
Arguments reply_success {A} content.
Arguments reply_error {A} code message.

(** [GET /files/:id/status] *)
Definition getFileStatus (user : option Z) (id : Z)
    : Async (Reply FileProcessingJobDTO) :=
  try_catch
    (match user with
     | None => mret (reply_error 401 "Authentication required")
     | Some u =>
         fileStatus ← Service.getFileStatus id u ;
         match fileStatus with
         | None => mret (reply_error 404 FILE_MESSAGES.FILE_NOT_FOUND)
         | Some dto => mret (reply_success dto)
         end
     end)
    (λ _, mret (reply_error 500 "Internal server error")).

(** The [pagination] object of the records endpoint. *)
Record Pagination := mkPagination {
  pg_total : nat;
  pg_page : Z;
  pg_rows : Z
}.

(** [GET /files/:id/data] *)
Definition getProcessedData (findMany : store.FindMany) (user : option Z)
    (id : Z) (query : PageQuery) : Async (Reply (list ProcessedData * Pagination)) :=
  try_catch
    (match user with
     | None => mret (reply_error 401 "Authentication required")
     | Some u =>
         '(data, total) ← Service.getProcessedData findMany id u query ;
         mret (reply_success
                 (data,
                  mkPagination total (orElse (q_page query) 1)
                    (orElse (q_rows query) 50)))
     end)
    (λ error,
       mret (reply_error 500
               match error with
               | ErrorObj message => message
               | NonError => "Failed to retrieve processed data"
               end)).

(** [DELETE /files/:id] *)
Definition deleteFile (unlinkThrows : bool) (user : option Z) (id : Z)
    : Async (Reply unit) :=
  try_catch
    (match user with
     | None => mret (reply_error 401 "Authentication required")
     | Some u =>
         fileStatus ← Service.getFileStatus id u ;
         match fileStatus with
         | None => mret (reply_error 404 FILE_MESSAGES.FILE_NOT_FOUND)
         | Some _ =>
             Service.deleteFile unlinkThrows id u ;;
             mret (reply_success ())
         end
     end)
    (λ _, mret (reply_error 500 "Internal server error")).

End Controller.

(** The records the service returns for page [page] of size parameter
    [rows] (nothing when it rejects). *)
Definition recordsOfPage (findMany : store.FindMany) (id user : Z)
    (rows : option Z) (w : World) (page : nat) : list ProcessedData :=
  match (Service.getProcessedData findMany id user
           (mkPageQuery (Some (Z.of_nat page)) rows) w).1 with
  | Resolved (data, _) => data
  | Rejected _ => []
  end.

(** A database for the examples: it orders by row number and answers any
    window from the front. *)
Definition rowBefore (a b : ProcessedData) : Prop :=
  (rowNumber a ≤ rowNumber b)%nat.

#[global] Instance rowBefore_dec a b : Decision (rowBefore a b).
Proof. unfold rowBefore. apply _. Defined.

Definition byRowNumber (l : list ProcessedData) : list ProcessedData :=
  merge_sort rowBefore l.

Definition sampleFindMany : store.FindMany := λ id skip n table,
  Resolved (take (Z.to_nat n)
              (drop (Z.to_nat skip)
                 (byRowNumber (filter (λ r, fileProcessingId r = id) table)))).

(** The world with another disk. *)
Definition with_files (fl : gmap string (list (list JsValue))) (w : World) : World :=
  mkWorld (fileProcessing w) (processedData w) (queue w) fl (faults w) (clock w).

(** The disk after the delete service has dealt with the upload of row [r]:
    the file is gone unless the removal was refused or the row names no
    file. *)
Definition filesAfter (unlinkThrows : bool) (r : FileProcessing) (w : World)
    : gmap string (list (list JsValue)) :=
  if unlinkThrows || bool_decide (fileUrl r = "")
  then files w
  else delete (fileUrl r) (files w).

(** The world after writes of the worker: the job's row replaced, records
    appended, the schedule moved on. *)
Definition touched (id : Z) (r' : FileProcessing) (new : list ProcessedData)
    (fs : list (nat * Thrown)) (w : World) : World :=
  mkWorld (<[id := r']> (fileProcessing w)) (processedData w ++ new) (queue w)
          (files w) fs (clock w).

(** The batches the worker sends to [createMany], in order. *)
Definition batches (records : list ProcessedData) : list (list ProcessedData) :=
  (λ i, slice i (i + batchSize) records) <$> batchStarts (length records).

(** [createMany] called on each batch in turn. *)
Fixpoint createEach (bs : list (list ProcessedData)) : Async unit :=
  match bs with
  | [] => mret ()
  | b :: rest => prisma.processedData_createMany b ;; createEach rest
  end.

(** All the records the worker collects from a sheet, in the order it
    collects them. *)
Definition sheetRecords (id : Z) (data : list (list JsValue)) : list ProcessedData :=
  seq 1 (length data - 1) ≫= rowRecords id data.

(** Where the [try] block of the worker can stop: its outcome, the job's row
    as the block leaves it and the records it has stored.  [r] is the row
    the job had and [w] the world when the job was dequeued. *)
Inductive tryState (job : ExcelJobData) (w : World) (r : FileProcessing)
    : Outcome nat → FileProcessing → list ProcessedData → Prop :=
  | stopped_at_first_write e :
      tryState job w r (Rejected e) r []
  | stopped_before_total e :
      (files w !! jd_fileUrl job = None
       ∨ (files w !! jd_fileUrl job = Some []
          ∧ e = ErrorObj FILE_MESSAGES.NO_DATA_FOUND)
       ∨ ∃ data, files w !! jd_fileUrl job = Some data ∧ data ≠ []) →
      tryState job w r (Rejected e)
        (markInProgress (default 0 (jd_retryCount job)) r) []
  | stopped_after_total e data p stored :
      files w !! jd_fileUrl job = Some data →
      data ≠ [] →
      (p = processedRows r ∨ ∃ c, p = Some c ∧ (0 < c ≤ length data - 1)%nat) →
      stored `prefix_of` sheetRecords (jd_fileProcessingId job) data →
      tryState job w r (Rejected e)
        (withProcessedRows p
           (setTotalRows (length data - 1)
              (markInProgress (default 0 (jd_retryCount job)) r)))
        stored
  | ran_to_the_end data :
      files w !! jd_fileUrl job = Some data →
      data ≠ [] →
      tryState job w r (Resolved (length data - 1))
        (completedRow job (length data - 1) (clock w) r)
        (sheetRecords (jd_fileProcessingId job) data).

(** ** Running computations *)

Lemma bind_resolved {A B} (m : Async A) (k : A → Async B) w a w' :
  m w = (Resolved a, w') → (m ≫= k) w = k a w'.
Proof. intros H. unfold mbind, Async_bind. by rewrite H. Qed.

Lemma bind_rejected {A B} (m : Async A) (k : A → Async B) w e w' :
  m w = (Rejected e, w') → (m ≫= k) w = (Rejected e, w').
Proof. intros H. unfold mbind, Async_bind. by rewrite H. Qed.

Lemma externalCall_quiet w : faults w = [] → externalCall w = (Resolved (), w).
Proof. intros H. unfold externalCall. by rewrite H. Qed.

Lemma externalCall_pass w n e rest :
  faults w = (S n, e) :: rest →
  externalCall w = (Resolved (), set_faults ((n, e) :: rest) w).
Proof. intros H. unfold externalCall. by rewrite H. Qed.

Lemma externalCall_fault w e rest :
  faults w = (0, e) :: rest → externalCall w = (Rejected e, set_faults rest w).
Proof. intros H. unfold externalCall. by rewrite H. Qed.

Lemma update_quiet id data w r :
  faults w = [] → fileProcessing w !! id = Some r →
  prisma.fileProcessing_update id data w
  = (Resolved (), set_fileProcessing (insert id (data r)) w).
Proof.
  intros Hf Hr. unfold prisma.fileProcessing_update.
  rewrite (bind_resolved _ _ _ _ _ (externalCall_quiet w Hf)).
  unfold effect. by rewrite Hr.
Qed.

Lemma update_pass id data w r n e rest :
  faults w = (S n, e) :: rest → fileProcessing w !! id = Some r →
  prisma.fileProcessing_update id data w
  = (Resolved (),
     set_fileProcessing (insert id (data r)) (set_faults ((n, e) :: rest) w)).
Proof.
  intros Hf Hr. unfold prisma.fileProcessing_update.
  rewrite (bind_resolved _ _ _ _ _ (externalCall_pass w n e rest Hf)).
  unfold effect. simpl. by rewrite Hr.
Qed.

Lemma update_fault id data w e rest :
  faults w = (0, e) :: rest →
  prisma.fileProcessing_update id data w = (Rejected e, set_faults rest w).
Proof.
  intros Hf. unfold prisma.fileProcessing_update.
  by rewrite (bind_rejected _ _ _ _ _ (externalCall_fault w e rest Hf)).
Qed.

Lemma createMany_quiet batch w :
  faults w = [] →
  prisma.processedData_createMany batch w
  = (Resolved (), set_processedData (λ t, t ++ batch) w).
Proof.
  intros Hf. unfold prisma.processedData_createMany.
  by rewrite (bind_resolved _ _ _ _ _ (externalCall_quiet w Hf)).
Qed.

(** ** The column loop *)

Lemma hasValue_blank v : hasValue v = true ↔ ¬ blank v.
Proof.
  unfold blank, hasValue, strictNe, strictEq.
  destruct v as [| |b|n|s]; simpl.
  - split; [done|]. intros H. destruct H. by left.
  - split; [done|]. intros H. destruct H. right. by left.
  - split; [|done]. by intros _ [H|[H|H]].
  - split; [|done]. by intros _ [H|[H|H]].
  - case_bool_decide as Hs; simpl.
    + split; [done|]. intros H. destruct H. right. right. by rewrite Hs.
    + split; [|done]. intros _ [H|[H|H]]; [done|done|]. congruence.
Qed.

Lemma colLoop_filter id headers row rowIndex colIndexes acc :
  colLoop id headers row rowIndex colIndexes acc
  = acc ++ ((λ c, cellRecord id rowIndex (at_ headers c) (at_ row c)) <$>
            filter (λ c, ¬ blank (at_ row c)) colIndexes).
Proof.
  revert acc. induction colIndexes as [|c rest IH]; intros acc; simpl.
  - by rewrite app_nil_r.
  - rewrite IH, filter_cons. destruct (hasValue (at_ row c)) eqn:Hv.
    + apply hasValue_blank in Hv. rewrite decide_True by done.
      by rewrite fmap_cons, <- app_assoc.
    + rewrite decide_False; [done|]. intros Hb. apply hasValue_blank in Hb.
      congruence.
Qed.

Section sheet.

Context (id : Z) (data : list (list JsValue)).

Lemma rowRecords_cells rowIndex :
  rowRecords id data rowIndex
  = recordOf id data <$>
      filter (λ rc, ¬ blank (cellAt data rc))
             (pair rowIndex <$> seq 0 (length (headerRow data))).
Proof.
  unfold rowRecords. rewrite colLoop_filter. simpl.
  generalize (seq 0 (length (headerRow data))) as cols.
  induction cols as [|c rest IH]; [done|].
  rewrite fmap_cons, !filter_cons. unfold cellAt at 1. simpl.
  destruct (decide (¬ blank (at_ (default [] (data !! rowIndex)) c))).
  - rewrite !fmap_cons, IH. done.
  - apply IH.
Qed.

Lemma bind_rowRecords_cells rowIndexes :
  rowIndexes ≫= rowRecords id data
  = recordOf id data <$>
      filter (λ rc, ¬ blank (cellAt data rc))
             (rowIndexes ≫= λ r, pair r <$> seq 0 (length (headerRow data))).
Proof.
  induction rowIndexes as [|r rest IH]; [done|].
  rewrite !bind_cons, filter_app, fmap_app, IH, rowRecords_cells. done.
Qed.

Lemma length_dataCells :
  length (dataCells data) = (length data - 1) * length (headerRow data).
Proof.
  unfold dataCells. set (h := length (headerRow data)).
  assert (∀ rows : list nat,
    length (rows ≫= λ r, pair r <$> seq 0 h) = length rows * h) as Hrows.
  { induction rows as [|r rest IH]; [done|].
    rewrite bind_cons, length_app, IH, length_fmap, length_seq. simpl. lia. }
  by rewrite Hrows, length_seq.
Qed.

Lemma elem_of_dataCells rc :
  rc ∈ dataCells data
  ↔ (1 ≤ rc.1 < length data)%nat ∧ (rc.2 < length (headerRow data))%nat.
Proof.
  unfold dataCells. rewrite list_elem_of_bind. split.
  - intros (k & Hrc & Hk). apply list_elem_of_fmap in Hrc as (c & -> & Hc).
    apply elem_of_seq in Hk, Hc. simpl. lia.
  - intros [Hk Hc]. exists rc.1. split.
    + apply list_elem_of_fmap. exists rc.2. split; [by destruct rc|].
      apply elem_of_seq. lia.
    + apply elem_of_seq. lia.
Qed.

Lemma rowRecords_rowNumber k rec :
  rec ∈ rowRecords id data k → rowNumber rec = k + 1.
Proof.
  rewrite rowRecords_cells. intros Hrec.
  apply list_elem_of_fmap in Hrec as (rc & -> & Hrc).
  apply list_elem_of_filter in Hrc as [_ Hrc].
  apply list_elem_of_fmap in Hrc as (c & -> & _). done.
Qed.

End sheet.

(** ** The worker when no call fails *)

Lemma withProcessedRows_id r w id :
  fileProcessing w !! id = Some r →
  set_fileProcessing (insert id (withProcessedRows (processedRows r) r)) w = w.
Proof.
  intros Hr. destruct w as [fp pd q fl fs ck], r as [u url st rc tr pr em ca].
  unfold set_fileProcessing, withProcessedRows. simpl in *.
  by rewrite insert_id.
Qed.

Lemma set_fileProcessing_twice id r1 r2 w :
  set_fileProcessing (insert id r2) (set_fileProcessing (insert id r1) w)
  = set_fileProcessing (insert id r2) w.
Proof. unfold set_fileProcessing. simpl. by rewrite insert_insert_eq. Qed.

Lemma colLoop_acc id headers row rowIndex colIndexes acc :
  colLoop id headers row rowIndex colIndexes acc
  = acc ++ colLoop id headers row rowIndex colIndexes [].
Proof. by rewrite (colLoop_filter _ _ _ _ _ acc), (colLoop_filter _ _ _ _ _ []). Qed.

Lemma rowLoop_quiet id data rowIndexes :
  ∀ acc cnt w r,
    faults w = [] → fileProcessing w !! id = Some r →
    ∃ p, rowLoop id data (headerRow data) rowIndexes acc cnt w
         = (Resolved (acc ++ (rowIndexes ≫= rowRecords id data),
                      cnt + length rowIndexes),
            set_fileProcessing (insert id (withProcessedRows p r)) w).
Proof.
  induction rowIndexes as [|k rest IH]; intros acc cnt w r Hf Hr.
  - exists (processedRows r). simpl.
    rewrite app_nil_r, Nat.add_0_r, withProcessedRows_id by done. done.
  - cbn [rowLoop]. rewrite bind_cons, app_assoc, (colLoop_acc _ _ _ _ _ acc).
    fold (rowRecords id data k).
    replace (cnt + length (k :: rest)) with (S cnt + length rest) by (simpl; lia).
    case_bool_decide as Hten.
    + erewrite bind_resolved by (by apply update_quiet).
      edestruct (IH (acc ++ rowRecords id data k) (S cnt)
                    (set_fileProcessing (insert id (setProcessedRows (S cnt) r)) w)
                    (setProcessedRows (S cnt) r)) as [p Hp].
      * done.
      * simpl. apply lookup_insert_eq.
      * exists p. rewrite Hp, set_fileProcessing_twice. done.
    + erewrite bind_resolved by reflexivity. by apply IH.
Qed.

Lemma batchLoop_quiet records c :
  ∀ a w,
    faults w = [] →
    batchLoop records ((λ k, k * batchSize) <$> seq a c) w
    = (Resolved (),
       set_processedData
         (λ t, t ++ take (c * batchSize) (drop (a * batchSize) records)) w).
Proof.
  induction c as [|c IH]; intros a w Hf.
  - simpl. destruct w. unfold set_processedData. simpl. by rewrite app_nil_r.
  - cbn [seq fmap list_fmap batchLoop].
    erewrite bind_resolved by (by apply createMany_quiet).
    change (list_fmap nat nat (λ k, k * batchSize) (seq (S a) c))
      with ((λ k, k * batchSize) <$> seq (S a) c).
    rewrite IH by done. unfold set_processedData, slice. simpl processedData.
    do 2 f_equal. rewrite <- app_assoc. f_equal.
    replace (a * batchSize + batchSize - a * batchSize) with batchSize by lia.
    replace (S a * batchSize) with (a * batchSize + batchSize) by lia.
    rewrite <- drop_drop, take_take_drop. f_equal; lia.
Qed.

Lemma batchStarts_cover (n : nat) :
  (n ≤ ((n + (batchSize - 1)) / batchSize) * batchSize)%nat.
Proof.
  unfold batchSize.
  pose proof (Nat.div_mod_eq (n + (100 - 1)) 100) as Hd.
  pose proof (Nat.mod_upper_bound (n + (100 - 1)) 100) as Hm.
  lia.
Qed.

Lemma batchLoop_all records w :
  faults w = [] →
  batchLoop records (batchStarts (length records)) w
  = (Resolved (), set_processedData (λ t, t ++ records) w).
Proof.
  intros Hf. unfold batchStarts. rewrite batchLoop_quiet by done.
  unfold set_processedData. rewrite drop_0, take_ge; [done|].
  apply batchStarts_cover.
Qed.

Lemma handleExcelJob_quiet job w r data :
  faults w = [] →
  fileProcessing w !! jd_fileProcessingId job = Some r →
  files w !! jd_fileUrl job = Some data →
  data ≠ [] →
  handleExcelJob job w
  = (Resolved (length data - 1),
     mkWorld
       (<[jd_fileProcessingId job :=
            completedRow job (length data - 1) (clock w) r]> (fileProcessing w))
       (processedData w
          ++ (seq 1 (length data - 1) ≫= rowRecords (jd_fileProcessingId job) data))
       (queue w) (files w) [] (clock w)).
Proof.
  intros Hf Hr Hfile Hdata.
  unfold handleExcelJob, try_catch, processExcel.
  set (id := jd_fileProcessingId job) in *.
  erewrite bind_resolved by (by apply update_quiet).
  erewrite bind_resolved by (unfold readSheet; simpl; by rewrite Hfile).
  rewrite bool_decide_false by (by destruct data).
  erewrite bind_resolved; [|apply update_quiet; [done|apply lookup_insert_eq]].
  rewrite set_fileProcessing_twice.
  edestruct (rowLoop_quiet id data (seq 1 (length data - 1)) [] 0
    (set_fileProcessing
       (insert id (setTotalRows (length data - 1)
          (markInProgress (default 0 (jd_retryCount job)) r))) w))
    as [p Hp]; [done|apply lookup_insert_eq|].
  erewrite bind_resolved by apply Hp.
  rewrite set_fileProcessing_twice, length_seq. simpl app.
  erewrite bind_resolved by (by apply batchLoop_all).
  erewrite bind_resolved by reflexivity.
  erewrite bind_resolved; [|apply update_quiet; [done|apply lookup_insert_eq]].
  destruct w as [fp pd q fl fs ck]. simpl in Hf. subst fs.
  unfold set_processedData, set_fileProcessing. simpl.
  rewrite insert_insert_eq. done.
Qed.

(** ** The claims about a run in which no call fails *)

(** C8: a job whose extraction and persistence succeed (the sheet has a
    header row, no store call fails) ends COMPLETED, with totalRows the
    sheet's row count minus the header row, processedRows equal to
    totalRows, and completedAt set; this holds from any status the row had
    when the job was dequeued, PENDING in particular. *)
Theorem completed_job_counts job w r data :
  faults w = [] →
  fileProcessing w !! jd_fileProcessingId job = Some r →
  files w !! jd_fileUrl job = Some data →
  data ≠ [] →
  ∃ w' r',
    handleExcelJob job w = (Resolved (length data - 1), w')
    ∧ fileProcessing w' !! jd_fileProcessingId job = Some r'
    ∧ status r' = COMPLETED
    ∧ totalRows r' = Some (length data - 1)
    ∧ processedRows r' = totalRows r'
    ∧ is_Some (completedAt r').
Proof.
  intros Hf Hr Hfile Hdata.
  eexists _, _. split; [by apply handleExcelJob_quiet|].
  split; [apply lookup_insert_eq|]. simpl. eauto.
Qed.

Lemma completed_job_counts_witness :
  ∃ w' r',
    handleExcelJob sampleJob (sampleWorld peopleSheet []) = (Resolved 2, w')
    ∧ fileProcessing w' !! 7%Z = Some r'
    ∧ status r' = COMPLETED
    ∧ totalRows r' = Some 2
    ∧ processedRows r' = totalRows r'
    ∧ is_Some (completedAt r').
Proof.
  apply (completed_job_counts sampleJob (sampleWorld peopleSheet []) sampleRow
           peopleSheet); [reflexivity|reflexivity|reflexivity|discriminate].
Defined.

(** C5: for a sheet with a header row and N rows below it, the records a
    successful run adds to the store are, in reading order, the records of
    exactly those of the N×|H| cells whose value is not blank (not
    undefined, null or the empty string); so their number is the number of
    non-blank cells. *)
Theorem extraction_emits_nonblank_cells job w r data :
  faults w = [] →
  fileProcessing w !! jd_fileProcessingId job = Some r →
  files w !! jd_fileUrl job = Some data →
  data ≠ [] →
  ∃ n w',
    handleExcelJob job w = (Resolved n, w')
    ∧ processedData w'
      = processedData w
        ++ (recordOf (jd_fileProcessingId job) data <$>
              filter (λ rc, ¬ blank (cellAt data rc)) (dataCells data))
    ∧ length (processedData w') - length (processedData w)
      = length (filter (λ rc, ¬ blank (cellAt data rc)) (dataCells data))
    ∧ (∀ rc, rc ∈ dataCells data
             ↔ (1 ≤ rc.1 < length data)%nat
               ∧ (rc.2 < length (headerRow data))%nat)
    ∧ length (dataCells data) = (length data - 1) * length (headerRow data).
Proof.
  intros Hf Hr Hfile Hdata.
  eexists _, _. split; [by apply handleExcelJob_quiet|].
  simpl. rewrite bind_rowRecords_cells. fold (dataCells data).
  split; [done|]. split.
  - rewrite length_app, length_fmap. lia.
  - split; [apply elem_of_dataCells|apply length_dataCells].
Qed.

Lemma extraction_emits_nonblank_cells_witness :
  ∃ n w',
    handleExcelJob sampleJob (sampleWorld peopleSheet []) = (Resolved n, w')
    ∧ processedData w'
      = [] ++ (recordOf 7 peopleSheet <$>
                 filter (λ rc, ¬ blank (cellAt peopleSheet rc))
                        (dataCells peopleSheet))
    ∧ length (processedData w') - 0
      = length (filter (λ rc, ¬ blank (cellAt peopleSheet rc))
                       (dataCells peopleSheet))
    ∧ (∀ rc, rc ∈ dataCells peopleSheet
             ↔ (1 ≤ rc.1 < 3)%nat ∧ (rc.2 < 2)%nat)
    ∧ length (dataCells peopleSheet) = 2 * 2.
Proof.
  apply (extraction_emits_nonblank_cells sampleJob (sampleWorld peopleSheet [])
           sampleRow peopleSheet); [reflexivity|reflexivity|reflexivity|discriminate].
Defined.

(** C7, as the claim states it, fails: on a sheet with one row below the
    header, the record of that first data row carries rowNumber 2. *)
Lemma first_data_row_is_numbered_2 :
  processedData (handleExcelJob sampleJob (sampleWorld oneRowSheet [])).2
  = [mkProcessedData 7 2 (JString "A") "x" "string"]
  ∧ ¬ Forall (λ rec, rowNumber rec = 1)
        (processedData (handleExcelJob sampleJob (sampleWorld oneRowSheet [])).2).
Proof.
  split; [reflexivity|]. intros H.
  apply Forall_cons_1 in H as [H _]. vm_compute in H. discriminate.
Qed.

(** C7, amended: rowNumber is the 1-based row of the sheet, the header row
    being row 1: a successful run adds the records of the data rows in
    order, and the records of the k-th data row carry rowNumber k + 1 (those
    of the first data row carry 2). *)
Theorem rowNumber_counts_header_row job w r data :
  faults w = [] →
  fileProcessing w !! jd_fileProcessingId job = Some r →
  files w !! jd_fileUrl job = Some data →
  data ≠ [] →
  ∃ n w',
    handleExcelJob job w = (Resolved n, w')
    ∧ processedData w'
      = processedData w
        ++ (seq 1 (length data - 1) ≫= rowRecords (jd_fileProcessingId job) data)
    ∧ ∀ k rec,
        rec ∈ rowRecords (jd_fileProcessingId job) data k → rowNumber rec = k + 1.
Proof.
  intros Hf Hr Hfile Hdata.
  eexists _, _. split; [by apply handleExcelJob_quiet|].
  split; [done|]. apply rowRecords_rowNumber.
Qed.

Lemma rowNumber_counts_header_row_witness :
  ∃ n w',
    handleExcelJob sampleJob (sampleWorld peopleSheet []) = (Resolved n, w')
    ∧ processedData w' = [] ++ (seq 1 2 ≫= rowRecords 7 peopleSheet)
    ∧ ∀ k rec, rec ∈ rowRecords 7 peopleSheet k → rowNumber rec = k + 1.
Proof.
  apply (rowNumber_counts_header_row sampleJob (sampleWorld peopleSheet [])
           sampleRow peopleSheet); [reflexivity|reflexivity|reflexivity|discriminate].
Defined.

Lemma typeof_hasValue v :
  ¬ blank v → typeof v ∈ ["string"; "number"; "boolean"].
Proof.
  unfold blank. intros Hv.
  destruct v; simpl; [by destruct Hv; left|by destruct Hv; right; left|..];
    repeat first [apply list_elem_of_here | apply list_elem_of_further].
Qed.

Lemma not_blank_iff v :
  ¬ blank v ↔ v ≠ JUndefined ∧ v ≠ JNull ∧ v ≠ JString "".
Proof. unfold blank. tauto. Qed.

Lemma filter_length_split {A} (P : A → Prop) `{∀ x, Decision (P x)} (l : list A) :
  length (filter P l) + length (filter (λ x, ¬ P x) l) = length l.
Proof.
  induction l as [|x l IH]; [done|].
  rewrite !filter_cons. destruct (decide (P x)) as [Hx|Hx].
  - rewrite decide_False by tauto. simpl. lia.
  - rewrite decide_True by done. simpl. lia.
Qed.

(** C6, as the claim states it, fails: a cell that holds a date reaches the
    worker as its serial number, and its record carries the tag 'number',
    not 'date'. *)
Lemma date_cell_is_tagged_number :
  cellAt dateSheet (1, 0) = temporal (NInt 45965)
  ∧ processedData (handleExcelJob sampleJob (sampleWorld dateSheet [])).2
    = [mkProcessedData 7 2 (JString "When") "45965" "number"]
  ∧ ¬ Forall (λ rec, dataType rec = "date")
        (processedData (handleExcelJob sampleJob (sampleWorld dateSheet [])).2).
Proof.
  split; [reflexivity|]. split; [reflexivity|]. intros H.
  apply Forall_cons_1 in H as [H _]. vm_compute in H. discriminate.
Qed.

(** C6, amended: every record a successful run adds carries as dataType the
    JavaScript typeof of the cell's value, which for a stored cell is one of
    string, number, boolean; a temporal cell reaches the worker as its
    serial number and yields 'number'; no record carries the tag 'date' or
    'other'. *)
Theorem dataType_is_typeof job w r data :
  faults w = [] →
  fileProcessing w !! jd_fileProcessingId job = Some r →
  files w !! jd_fileUrl job = Some data →
  data ≠ [] →
  ∃ n w',
    handleExcelJob job w = (Resolved n, w')
    ∧ processedData w'
      = processedData w
        ++ (recordOf (jd_fileProcessingId job) data <$>
              filter (λ rc, ¬ blank (cellAt data rc)) (dataCells data))
    ∧ (∀ rc, ¬ blank (cellAt data rc) →
         dataType (recordOf (jd_fileProcessingId job) data rc)
         = typeof (cellAt data rc)
         ∧ dataType (recordOf (jd_fileProcessingId job) data rc)
           ∈ ["string"; "number"; "boolean"])
    ∧ (∀ rc serial, cellAt data rc = temporal serial →
         dataType (recordOf (jd_fileProcessingId job) data rc) = "number")
    ∧ Forall (λ rec, dataType rec ≠ "date" ∧ dataType rec ≠ "other")
        (recordOf (jd_fileProcessingId job) data <$>
           filter (λ rc, ¬ blank (cellAt data rc)) (dataCells data)).
Proof.
  intros Hf Hr Hfile Hdata.
  eexists _, _. split; [by apply handleExcelJob_quiet|].
  simpl. rewrite bind_rowRecords_cells. fold (dataCells data).
  split; [done|]. split; [|split].
  - intros rc Hrc. split; [done|]. by apply typeof_hasValue.
  - intros rc serial Hrc. unfold recordOf, cellRecord. cbn [dataType].
    by rewrite Hrc.
  - apply Forall_fmap, Forall_forall. intros rc Hrc.
    apply list_elem_of_filter in Hrc as [Hrc _].
    apply typeof_hasValue in Hrc.
    change (typeof (cellAt data rc) ≠ "date" ∧ typeof (cellAt data rc) ≠ "other").
    revert Hrc. generalize (typeof (cellAt data rc)). intros t Ht.
    repeat (apply elem_of_cons in Ht as [->|Ht]; [by split|]).
    by apply elem_of_nil in Ht.
Qed.

Lemma dataType_is_typeof_witness :
  ∃ n w',
    handleExcelJob sampleJob (sampleWorld dateSheet []) = (Resolved n, w')
    ∧ processedData w'
      = [] ++ (recordOf 7 dateSheet <$>
                 filter (λ rc, ¬ blank (cellAt dateSheet rc)) (dataCells dateSheet))
    ∧ (∀ rc, ¬ blank (cellAt dateSheet rc) →
         dataType (recordOf 7 dateSheet rc) = typeof (cellAt dateSheet rc)
         ∧ dataType (recordOf 7 dateSheet rc)
           ∈ ["string"; "number"; "boolean"])
    ∧ (∀ rc serial, cellAt dateSheet rc = temporal serial →
         dataType (recordOf 7 dateSheet rc) = "number")
    ∧ Forall (λ rec, dataType rec ≠ "date" ∧ dataType rec ≠ "other")
        (recordOf 7 dateSheet <$>
           filter (λ rc, ¬ blank (cellAt dateSheet rc)) (dataCells dateSheet)).
Proof.
  apply (dataType_is_typeof sampleJob (sampleWorld dateSheet []) sampleRow
           dateSheet); [reflexivity|reflexivity|reflexivity|discriminate].
Defined.

(** C10: the worker takes a cell for blank exactly when it is strictly equal
    to undefined, null or the empty string.  On every sheet, the records a
    successful run adds are, in reading order, those of the cells that are
    none of the three, each with its String-converted value: the cells that
    are one of the three are skipped, and a whitespace-only string, the
    number 0 and the boolean false are stored with the values ' ', '0' and
    'false'. *)
Theorem blank_is_undefined_null_or_empty job w r data :
  faults w = [] →
  fileProcessing w !! jd_fileProcessingId job = Some r →
  files w !! jd_fileUrl job = Some data →
  data ≠ [] →
  let id := jd_fileProcessingId job in
  let stored rc :=
    cellAt data rc ≠ JUndefined ∧ cellAt data rc ≠ JNull
    ∧ cellAt data rc ≠ JString "" in
  let skipped rc :=
    cellAt data rc = JUndefined ∨ cellAt data rc = JNull
    ∨ cellAt data rc = JString "" in
  (∀ v, hasValue v = false ↔ v = JUndefined ∨ v = JNull ∨ v = JString "")
  ∧ ∃ n w',
      handleExcelJob job w = (Resolved n, w')
      ∧ processedData w'
        = processedData w ++ (recordOf id data <$> filter stored (dataCells data))
      ∧ length (processedData w') + length (filter skipped (dataCells data))
        = length (processedData w) + length (dataCells data)
      ∧ (∀ rc, rc ∈ dataCells data → stored rc →
           recordOf id data rc ∈ recordOf id data <$> filter stored (dataCells data)
           ∧ value (recordOf id data rc) = String_ (cellAt data rc))
      ∧ (∀ rc, rc ∈ dataCells data →
           (cellAt data rc = JString " " →
              stored rc ∧ value (recordOf id data rc) = " ")
           ∧ (cellAt data rc = JNumber (NInt 0) →
                stored rc ∧ value (recordOf id data rc) = "0")
           ∧ (cellAt data rc = JBoolean false →
                stored rc ∧ value (recordOf id data rc) = "false")).
Proof.
  intros Hf Hr Hfile Hdata id stored skipped. split.
  { intros v. fold (blank v). pose proof (hasValue_blank v) as Hv.
    destruct (hasValue v); split; intros H.
    - discriminate.
    - exfalso. by apply Hv.
    - destruct (decide (blank v)) as [Hb|Hb]; [done|]. by apply Hv in Hb.
    - done. }
  assert (filter (λ rc, ¬ blank (cellAt data rc)) (dataCells data)
          = filter stored (dataCells data)) as Hstored.
  { apply list_filter_iff. intros rc. apply not_blank_iff. }
  assert (filter (λ rc, ¬ ¬ blank (cellAt data rc)) (dataCells data)
          = filter skipped (dataCells data)) as Hskipped.
  { apply list_filter_iff. intros rc. unfold skipped. fold (blank (cellAt data rc)).
    destruct (decide (blank (cellAt data rc))); tauto. }
  eexists _, _. split; [by apply handleExcelJob_quiet|].
  simpl. rewrite bind_rowRecords_cells. fold (dataCells data).
  rewrite Hstored. split; [done|]. split; [|split].
  - rewrite length_app, length_fmap, <- Hstored, <- Hskipped.
    pose proof (filter_length_split (λ rc, ¬ blank (cellAt data rc)) (dataCells data)).
    lia.
  - intros rc Hrc Hst. split; [|done].
    apply list_elem_of_fmap. exists rc. split; [done|].
    by apply list_elem_of_filter.
  - intros rc Hrc. unfold stored, recordOf, cellRecord. cbn [value].
    split; [|split]; intros Hv; rewrite Hv; by repeat split.
Qed.

Lemma blank_is_undefined_null_or_empty_witness :
  let stored rc :=
    cellAt edgeSheet rc ≠ JUndefined ∧ cellAt edgeSheet rc ≠ JNull
    ∧ cellAt edgeSheet rc ≠ JString "" in
  let skipped rc :=
    cellAt edgeSheet rc = JUndefined ∨ cellAt edgeSheet rc = JNull
    ∨ cellAt edgeSheet rc = JString "" in
  (∀ v, hasValue v = false ↔ v = JUndefined ∨ v = JNull ∨ v = JString "")
  ∧ ∃ n w',
      handleExcelJob sampleJob (sampleWorld edgeSheet []) = (Resolved n, w')
      ∧ processedData w'
        = [] ++ (recordOf 7 edgeSheet <$> filter stored (dataCells edgeSheet))
      ∧ length (processedData w') + length (filter skipped (dataCells edgeSheet))
        = 0 + length (dataCells edgeSheet)
      ∧ (∀ rc, rc ∈ dataCells edgeSheet → stored rc →
           recordOf 7 edgeSheet rc
             ∈ recordOf 7 edgeSheet <$> filter stored (dataCells edgeSheet)
           ∧ value (recordOf 7 edgeSheet rc) = String_ (cellAt edgeSheet rc))
      ∧ (∀ rc, rc ∈ dataCells edgeSheet →
           (cellAt edgeSheet rc = JString " " →
              stored rc ∧ value (recordOf 7 edgeSheet rc) = " ")
           ∧ (cellAt edgeSheet rc = JNumber (NInt 0) →
                stored rc ∧ value (recordOf 7 edgeSheet rc) = "0")
           ∧ (cellAt edgeSheet rc = JBoolean false →
                stored rc ∧ value (recordOf 7 edgeSheet rc) = "false")).
Proof.
  apply (blank_is_undefined_null_or_empty sampleJob (sampleWorld edgeSheet [])
           sampleRow edgeSheet); [reflexivity|reflexivity|reflexivity|discriminate].
Defined.

(** ** A sheet without data rows, and a sheet without rows *)

Lemma handleExcelJob_no_rows job w r :
  faults w = [] →
  fileProcessing w !! jd_fileProcessingId job = Some r →
  files w !! jd_fileUrl job = Some [] →
  handleExcelJob job w
  = (Rejected (ErrorObj FILE_MESSAGES.NO_DATA_FOUND),
     set_fileProcessing
       (insert (jd_fileProcessingId job)
          (markFailed FILE_MESSAGES.NO_DATA_FOUND
             (markInProgress (default 0 (jd_retryCount job)) r))) w).
Proof.
  intros Hf Hr Hfile.
  unfold handleExcelJob, try_catch, processExcel.
  erewrite bind_resolved by (by apply update_quiet).
  erewrite bind_resolved by (unfold readSheet; simpl; by rewrite Hfile).
  rewrite bool_decide_true by done. unfold throw at 1. unfold onFailure.
  erewrite bind_resolved; [|apply update_quiet; [done|apply lookup_insert_eq]].
  by rewrite set_fileProcessing_twice.
Qed.

(** C2, as the claim states it, fails: on a sheet that holds a header row
    and nothing else the run resolves, and the job ends COMPLETED with
    totalRows 0. *)
Lemma header_only_sheet_is_completed :
  handleExcelJob sampleJob (sampleWorld headerOnlySheet [])
  = (Resolved 0,
     mkWorld
       {[ 7%Z := mkFileProcessing 1 "upload.xlsx" COMPLETED 0 (Some 0) (Some 0)
                   None (Some 1000) ]}
       [] [] {[ "upload.xlsx" := headerOnlySheet ]} [] 1000).
Proof. reflexivity. Qed.

(** C2, amended: when no store call fails, a sheet that holds only a header
    row is extracted successfully: the job ends COMPLETED with totalRows 0
    and processedRows 0, and no record is stored.  The run fails with the
    NO_DATA_FOUND error only on a sheet with no row at all (no header
    either); the job then ends FAILED with that message and totalRows is
    left as it was. *)
Theorem header_only_sheet_completes job w r data :
  faults w = [] →
  fileProcessing w !! jd_fileProcessingId job = Some r →
  files w !! jd_fileUrl job = Some data →
  (length data ≤ 1)%nat →
  ∃ w' r',
    fileProcessing w' !! jd_fileProcessingId job = Some r'
    ∧ processedData w' = processedData w
    ∧ match data with
      | _ :: _ =>
          handleExcelJob job w = (Resolved 0, w')
          ∧ status r' = COMPLETED
          ∧ totalRows r' = Some 0
          ∧ processedRows r' = Some 0
      | [] =>
          handleExcelJob job w
          = (Rejected (ErrorObj FILE_MESSAGES.NO_DATA_FOUND), w')
          ∧ status r' = FAILED
          ∧ errorMessage r' = Some FILE_MESSAGES.NO_DATA_FOUND
          ∧ totalRows r' = totalRows r
      end.
Proof.
  intros Hf Hr Hfile Hlen. destruct data as [|headers rest].
  - eexists _, _. split; [|split; [|split; [by apply handleExcelJob_no_rows|]]].
    + apply lookup_insert_eq.
    + done.
    + done.
  - destruct rest; [|simpl in Hlen; lia].
    eexists _, _.
    split; [|split; [|split; [by apply (handleExcelJob_quiet job w r [headers])|]]].
    + apply lookup_insert_eq.
    + simpl. by rewrite app_nil_r.
    + done.
Qed.

Lemma header_only_sheet_completes_witness :
  ∃ w' r',
    fileProcessing w' !! 7%Z = Some r'
    ∧ processedData w' = []
    ∧ handleExcelJob sampleJob (sampleWorld headerOnlySheet []) = (Resolved 0, w')
    ∧ status r' = COMPLETED
    ∧ totalRows r' = Some 0
    ∧ processedRows r' = Some 0.
Proof.
  apply (header_only_sheet_completes sampleJob (sampleWorld headerOnlySheet [])
           sampleRow headerOnlySheet); [reflexivity|reflexivity|reflexivity|].
  simpl. lia.
Defined.

(** ** A checkpoint write that fails *)

Lemma succ_mod_10 (cnt : nat) :
  (S cnt mod 10 = 0 ∧ cnt mod 10 = 9) ∨ (S cnt mod 10 = cnt mod 10 + 1)%nat.
Proof.
  pose proof (Nat.div_mod_eq cnt 10) as H1.
  pose proof (Nat.div_mod_eq (S cnt) 10) as H2.
  pose proof (Nat.mod_upper_bound cnt 10) as H3.
  pose proof (Nat.mod_upper_bound (S cnt) 10) as H4.
  lia.
Qed.

Lemma rowLoop_checkpoint_fault id data e rowIndexes :
  ∀ j acc cnt w r,
    faults w = [(j, e)] →
    fileProcessing w !! id = Some r →
    (10 * (j + 1) ≤ cnt mod 10 + length rowIndexes)%nat →
    ∃ p, rowLoop id data (headerRow data) rowIndexes acc cnt w
         = (Rejected e,
            set_faults []
              (set_fileProcessing (insert id (withProcessedRows p r)) w)).
Proof.
  induction rowIndexes as [|k rest IH]; intros j acc cnt w r Hf Hr Hlen.
  - pose proof (Nat.mod_upper_bound cnt 10). cbn [length] in Hlen. lia.
  - cbn [rowLoop]. cbn [length] in Hlen.
    destruct (succ_mod_10 cnt) as [[Hten Hnine]|Hnext].
    + rewrite bool_decide_true by done. destruct j as [|j].
      * erewrite bind_rejected by (by apply update_fault).
        exists (processedRows r). by rewrite withProcessedRows_id.
      * erewrite bind_resolved by (by eapply update_pass).
        edestruct (IH j
          (colLoop id (headerRow data) (default [] (data !! k)) k
                   (seq 0 (length (headerRow data))) acc)
          (S cnt)
          (set_fileProcessing (insert id (setProcessedRows (S cnt) r))
             (set_faults [(j, e)] w))
          (setProcessedRows (S cnt) r)) as [p Hp].
        -- done.
        -- simpl. apply lookup_insert_eq.
        -- lia.
        -- exists p. rewrite Hp. destruct w as [fp pd q fl fs ck].
           unfold set_faults, set_fileProcessing. simpl.
           by rewrite insert_insert_eq.
    + rewrite bool_decide_false by lia.
      erewrite bind_resolved by reflexivity.
      apply (IH j); [done|done|lia].
Qed.

(** C4, as the claim states it, fails: a sheet with ten data rows is
    processed to COMPLETED when every write goes through, and ends FAILED,
    the handler rejecting, when the only write that raises is the checkpoint
    after the tenth row. *)
Lemma checkpoint_failure_aborts_job :
  (∃ w' r',
     handleExcelJob sampleJob (sampleWorld tenRowSheet []) = (Resolved 10, w')
     ∧ fileProcessing w' !! 7%Z = Some r' ∧ status r' = COMPLETED)
  ∧ (∃ w' r',
       handleExcelJob sampleJob (sampleWorld tenRowSheet [(2, outage)])
       = (Rejected outage, w')
       ∧ fileProcessing w' !! 7%Z = Some r' ∧ status r' = FAILED
       ∧ processedData w' = []).
Proof.
  split.
  - eexists _, _. split; [vm_compute; reflexivity|]. split; reflexivity.
  - eexists _, _. split; [vm_compute; reflexivity|]. repeat split; reflexivity.
Qed.

(** C4, amended: a checkpoint write is a store write like the others, and
    its failure aborts the run.  When the writes before it go through (the
    two status writes and j checkpoints) and the (j+1)-th checkpoint write
    raises e, the handler rejects with e; the
    catch block's write then marks the job FAILED with e's message, no
    record is stored and completedAt is left as it was. *)
Theorem checkpoint_failure_fails_job job w r data j e :
  fileProcessing w !! jd_fileProcessingId job = Some r →
  files w !! jd_fileUrl job = Some data →
  (10 * (j + 1) ≤ length data - 1)%nat →
  faults w = [(2 + j, e)] →
  ∃ w' r',
    handleExcelJob job w = (Rejected e, w')
    ∧ fileProcessing w' !! jd_fileProcessingId job = Some r'
    ∧ status r' = FAILED
    ∧ errorMessage r' = Some (errorText e)
    ∧ completedAt r' = completedAt r
    ∧ processedData w' = processedData w.
Proof.
  intros Hr Hfile Hlen Hf. simpl in Hf.
  unfold handleExcelJob, try_catch, processExcel.
  set (id := jd_fileProcessingId job) in *.
  erewrite bind_resolved by (by eapply update_pass).
  erewrite bind_resolved by (unfold readSheet; simpl; by rewrite Hfile).
  rewrite bool_decide_false by lia.
  erewrite bind_resolved;
    [|eapply update_pass; [reflexivity|apply lookup_insert_eq]].
  match goal with
  | |- context [(rowLoop _ _ _ _ _ _ ≫= _) ?w0] =>
      destruct (rowLoop_checkpoint_fault id data e (seq 1 (length data - 1)) j [] 0
                  w0
                  (setTotalRows (length data - 1)
                     (markInProgress (default 0 (jd_retryCount job)) r))
                  eq_refl) as [p Hp]
  end.
  - simpl. apply lookup_insert_eq.
  - rewrite length_seq. change (0 mod 10) with 0. lia.
  - erewrite (bind_rejected _ _ _ _ _ Hp).
    unfold onFailure. fold id.
    erewrite bind_resolved; [|apply update_quiet; [done|apply lookup_insert_eq]].
    eexists _, _. split; [reflexivity|].
    split; [apply lookup_insert_eq|]. done.
Qed.

Lemma checkpoint_failure_fails_job_witness :
  ∃ w' r',
    handleExcelJob sampleJob (sampleWorld tenRowSheet [(2, outage)])
    = (Rejected outage, w')
    ∧ fileProcessing w' !! 7%Z = Some r'
    ∧ status r' = FAILED
    ∧ errorMessage r' = Some "store unavailable"
    ∧ completedAt r' = None
    ∧ processedData w' = [].
Proof.
  apply (checkpoint_failure_fails_job sampleJob
           (sampleWorld tenRowSheet [(2, outage)]) sampleRow
           tenRowSheet 0 outage); [reflexivity|reflexivity|simpl; lia|reflexivity].
Defined.

(** ** Redelivery *)

(** C1: the code does not meet the claim.  On a sheet with one data row,
    the first delivery stores the record and then loses its final write to a
    store outage; the handler rejects, Bull redelivers, and the second
    execution stores the record again: the job holds the pair (2, 'A') twice,
    so the stored pairs are not unique.  (processedRows is not double
    counted: it ends at 1.) *)
Theorem redelivery_duplicates_records :
  let w0 := sampleWorld oneRowSheet [(3, outage)] in
  let w1 := (handleExcelJob sampleJob w0).2 in
  let w2 := (handleExcelJob sampleJob w1).2 in
  (handleExcelJob sampleJob w0).1 = Rejected outage
  ∧ (handleExcelJob sampleJob w1).1 = Resolved 1
  ∧ deliver sampleJob w0 = (Resolved 1, w2)
  ∧ storedKeys 7 w2 = [(2, JString "A"); (2, JString "A")]
  ∧ ¬ NoDup (storedKeys 7 w2)
  ∧ processedRows <$> fileProcessing w2 !! 7%Z = Some (Some 1).
Proof.
  cbv zeta.
  split; [vm_compute; reflexivity|]. split; [vm_compute; reflexivity|].
  split; [vm_compute; reflexivity|]. split; [vm_compute; reflexivity|].
  split; [|vm_compute; reflexivity].
  intros H. vm_compute in H. apply NoDup_cons in H as [H _]. apply H. left.
Qed.

(** C3: the code does not meet the claim.  A first delivery that fails (the
    batch insert meets a store outage) marks the job FAILED with the error's
    message; the redelivered run completes, and its writes leave
    errorMessage as it was: the job ends COMPLETED with a non-null
    errorMessage. *)
Theorem completed_job_keeps_error_message :
  let w0 := sampleWorld oneRowSheet [(2, outage)] in
  let w1 := (handleExcelJob sampleJob w0).2 in
  let w2 := (handleExcelJob sampleJob w1).2 in
  (handleExcelJob sampleJob w0).1 = Rejected outage
  ∧ (status <$> fileProcessing w1 !! 7%Z) = Some FAILED
  ∧ (errorMessage <$> fileProcessing w1 !! 7%Z) = Some (Some "store unavailable")
  ∧ deliver sampleJob w0 = (Resolved 1, w2)
  ∧ (status <$> fileProcessing w2 !! 7%Z) = Some COMPLETED
  ∧ (errorMessage <$> fileProcessing w2 !! 7%Z) = Some (Some "store unavailable").
Proof.
  cbv zeta.
  split; [vm_compute; reflexivity|]. split; [vm_compute; reflexivity|].
  split; [vm_compute; reflexivity|]. split; [vm_compute; reflexivity|].
  split; vm_compute; reflexivity.
Qed.

(** ** The retry endpoint *)

Lemma bind_resolved_inv {A B} (m : Async A) (k : A → Async B) w b w' :
  (m ≫= k) w = (Resolved b, w') →
  ∃ a w1, m w = (Resolved a, w1) ∧ k a w1 = (Resolved b, w').
Proof.
  unfold mbind, Async_bind. destruct (m w) as [[a|e] w1]; [eauto|discriminate].
Qed.

Lemma sameStore_refl w : sameStore w w.
Proof. by repeat split. Qed.

Lemma sameStore_trans w w1 w2 : sameStore w w1 → sameStore w1 w2 → sameStore w w2.
Proof. unfold sameStore. intros (-> & -> & ->) (-> & -> & ->). done. Qed.

(** Whatever the schedule says, the call itself leaves the store alone. *)
Lemma externalCall_store w o w1 : externalCall w = (o, w1) → sameStore w w1.
Proof.
  unfold externalCall. destruct (faults w) as [|[[|n] e] rest]; intros [= <- <-];
    by repeat split.
Qed.

Lemma call_effect_store {A} (f : World → Outcome A * World) w :
  ∃ w1, sameStore w w1
        ∧ ((∃ e, (externalCall ;; effect f) w = (Rejected e, w1))
           ∨ (externalCall ;; effect f) w = f w1).
Proof.
  unfold mbind, Async_bind, effect.
  destruct (externalCall w) as [[[]|e] w1] eqn:Hc;
    exists w1; (split; [by eapply externalCall_store|]); eauto.
Qed.

Lemma whereIdUser_store id u w w1 :
  sameStore w w1 → prisma.whereIdUser id u w1 = prisma.whereIdUser id u w.
Proof. intros (H & _ & _). unfold prisma.whereIdUser. by rewrite H. Qed.

Lemma whereIdUser_Some id u w r :
  prisma.whereIdUser id u w = Some r →
  fileProcessing w !! id = Some r ∧ userId r = u.
Proof.
  unfold prisma.whereIdUser. destruct (fileProcessing w !! id) as [r'|]; [|done].
  case_bool_decide; [|done]. by intros [= ->].
Qed.

Lemma findFirst_resolved_inv id u w o w1 :
  prisma.fileProcessing_findFirst id u w = (Resolved o, w1) →
  sameStore w w1 ∧ o = prisma.whereIdUser id u w.
Proof.
  unfold prisma.fileProcessing_findFirst. intros H.
  destruct (call_effect_store
              (λ w, (Resolved (prisma.whereIdUser id u w), w)) w)
    as (w2 & Hs & [[e He]|He]); rewrite He in H; [discriminate|].
  injection H as <- <-. split; [done|]. by apply whereIdUser_store.
Qed.

Lemma findFirst_store id u w o w1 :
  prisma.fileProcessing_findFirst id u w = (o, w1) → sameStore w w1.
Proof.
  unfold prisma.fileProcessing_findFirst. intros H.
  destruct (call_effect_store
              (λ w, (Resolved (prisma.whereIdUser id u w), w)) w)
    as (w2 & Hs & [[e He]|He]); rewrite He in H; by injection H as <- <-.
Qed.

(** Split a store call in [H] into its failure and what it does when it goes
    through, on a world with the same store. *)
Ltac split_call H w :=
  match type of H with
  | (externalCall ≫= λ _, effect ?f) _ = _ =>
      let w2 := fresh "w" in
      let e := fresh "e" in
      let He := fresh "He" in
      destruct (call_effect_store f w) as (w2 & (?H1 & ?H2 & ?H3) & [[e He]|He]);
      rewrite He in H; [discriminate|]
  end.

Lemma deleteMany_resolved_inv id w w1 :
  prisma.processedData_deleteMany id w = (Resolved (), w1) →
  fileProcessing w1 = fileProcessing w
  ∧ processedData w1 = filter (λ r, fileProcessingId r ≠ id) (processedData w)
  ∧ queue w1 = queue w.
Proof.
  unfold prisma.processedData_deleteMany. intros H.
  split_call H w.
  injection H as <-. simpl. by rewrite H1, H2, H3.
Qed.

Lemma update_resolved_inv id data w w1 :
  prisma.fileProcessing_update id data w = (Resolved (), w1) →
  ∃ r, fileProcessing w !! id = Some r
       ∧ fileProcessing w1 = <[id := data r]> (fileProcessing w)
       ∧ processedData w1 = processedData w
       ∧ queue w1 = queue w.
Proof.
  unfold prisma.fileProcessing_update. intros H.
  split_call H w.
  rewrite H1 in H. destruct (fileProcessing w !! id) as [r|]; [|discriminate].
  injection H as <-. exists r. simpl. by rewrite H1, H2, H3.
Qed.

Lemma addJob_resolved_inv name data w n w1 :
  addJob name data w = (Resolved n, w1) →
  fileProcessing w1 = fileProcessing w
  ∧ processedData w1 = processedData w
  ∧ queue w1 = queue w ++ [(name, data)].
Proof.
  unfold addJob. intros H.
  split_call H w.
  injection H as <- <-. simpl. by rewrite H1, H2, H3.
Qed.

Lemma findFirst_quiet id u w :
  faults w = [] →
  prisma.fileProcessing_findFirst id u w
  = (Resolved (prisma.whereIdUser id u w), w).
Proof.
  intros Hf. unfold prisma.fileProcessing_findFirst.
  by rewrite (bind_resolved _ _ _ _ _ (externalCall_quiet w Hf)).
Qed.

Lemma deleteMany_quiet id w :
  faults w = [] →
  prisma.processedData_deleteMany id w
  = (Resolved (),
     set_processedData (filter (λ r, fileProcessingId r ≠ id)) w).
Proof.
  intros Hf. unfold prisma.processedData_deleteMany.
  by rewrite (bind_resolved _ _ _ _ _ (externalCall_quiet w Hf)).
Qed.

Lemma addJob_quiet name data w :
  faults w = [] →
  addJob name data w
  = (Resolved (S (length (queue w))), set_queue (λ q, q ++ [(name, data)]) w).
Proof.
  intros Hf. unfold addJob.
  by rewrite (bind_resolved _ _ _ _ _ (externalCall_quiet w Hf)).
Qed.

Lemma retry_quiet u id w r :
  faults w = [] →
  fileProcessing w !! id = Some r →
  userId r = u →
  status r = FAILED →
  FileController.retryFileProcessing (Some u) id w
  = (Resolved (FileController.response_success (S (length (queue w))) id),
     mkWorld (<[id := FileProcessingService.resetToPending r]> (fileProcessing w))
       (filter (λ x, fileProcessingId x ≠ id) (processedData w))
       (queue w ++ [("process-excel-retry", mkExcelJobData (fileUrl r) id None)])
       (files w) [] (clock w)).
Proof.
  intros Hf Hr Hu Hst.
  assert (∀ w1, fileProcessing w1 = fileProcessing w →
                prisma.whereIdUser id u w1 = Some r) as Hrow.
  { intros w1 H1. unfold prisma.whereIdUser. rewrite H1, Hr.
    by rewrite bool_decide_true. }
  unfold FileController.retryFileProcessing, try_catch,
    FileProcessingService.getFileStatus.
  erewrite bind_resolved by (by apply findFirst_quiet).
  rewrite Hrow by done. rewrite bool_decide_false by (intros Hne; by apply Hne).
  unfold FileProcessingService.clearProcessedData.
  erewrite bind_resolved.
  2: { erewrite bind_resolved by (by apply findFirst_quiet).
       rewrite Hrow by done. by apply deleteMany_quiet. }
  unfold FileProcessingService.retryFileProcessing.
  erewrite bind_resolved.
  2: { erewrite bind_resolved by (by apply findFirst_quiet).
       rewrite Hrow by done.
       erewrite bind_resolved by (by apply update_quiet).
       erewrite bind_resolved by (by apply addJob_quiet).
       reflexivity. }
  destruct w as [fp pd q fl fs ck]. simpl in Hf. subst fs. reflexivity.
Qed.

(** C9: the retry endpoint succeeds only from FAILED.  (1) When the job's
    row is not FAILED (or there is no such row), the answer is an error and
    the job's row, the records and the queue are unchanged.  (2) When the
    answer is a success, the row was FAILED and owned by the caller, all
    records of the job are deleted, the row has status PENDING and null
    totalRows, processedRows, errorMessage and completedAt, and the job is
    at the end of the queue.  (3) From a FAILED row of the caller, when no
    call fails, the answer is a success. *)
Theorem retry_only_from_failed user id w :
  ((∀ r, fileProcessing w !! id = Some r → status r ≠ FAILED) →
   ∃ code message w',
     FileController.retryFileProcessing user id w
     = (Resolved (FileController.response_error code message), w')
     ∧ fileProcessing w' = fileProcessing w
     ∧ processedData w' = processedData w
     ∧ queue w' = queue w)
  ∧ (∀ jobId fid w',
       FileController.retryFileProcessing user id w
       = (Resolved (FileController.response_success jobId fid), w') →
       ∃ r r',
         fileProcessing w !! id = Some r
         ∧ user = Some (userId r)
         ∧ status r = FAILED
         ∧ processedData w' = filter (λ x, fileProcessingId x ≠ id) (processedData w)
         ∧ fileProcessing w' = <[id := r']> (fileProcessing w)
         ∧ status r' = PENDING
         ∧ totalRows r' = None
         ∧ processedRows r' = None
         ∧ errorMessage r' = None
         ∧ completedAt r' = None
         ∧ queue w'
           = queue w ++ [("process-excel-retry", mkExcelJobData (fileUrl r) id None)])
  ∧ (∀ r, fileProcessing w !! id = Some r → user = Some (userId r) →
          status r = FAILED → faults w = [] →
          ∃ jobId w',
            FileController.retryFileProcessing user id w
            = (Resolved (FileController.response_success jobId id), w')).
Proof.
  split; [|split].
  - intros Hnot.
    unfold FileController.retryFileProcessing, try_catch,
      FileProcessingService.getFileStatus.
    destruct user as [u|].
    2: { eexists _, _, _. split; [reflexivity|]. done. }
    destruct (prisma.fileProcessing_findFirst id u w) as [[o|e] w1] eqn:Hfind.
    + erewrite bind_resolved by exact Hfind.
      apply findFirst_resolved_inv in Hfind as [Hs ->].
      destruct (prisma.whereIdUser id u w) as [row|] eqn:Hrow.
      * apply whereIdUser_Some in Hrow as [Hrow _].
        rewrite bool_decide_true by (by apply Hnot).
        eexists _, _, _. split; [reflexivity|]. done.
      * eexists _, _, _. split; [reflexivity|]. done.
    + erewrite bind_rejected by exact Hfind.
      apply findFirst_store in Hfind.
      eexists _, _, _. split; [reflexivity|]. done.
  - intros jobId fid w' H.
    unfold FileController.retryFileProcessing, try_catch,
      FileProcessingService.getFileStatus in H.
    destruct user as [u|]; [|discriminate H].
    destruct (prisma.fileProcessing_findFirst id u w) as [[o|e] w1] eqn:Hfind.
    2: { erewrite bind_rejected in H by exact Hfind. discriminate H. }
    erewrite bind_resolved in H by exact Hfind.
    apply findFirst_resolved_inv in Hfind as [Hs1 ->].
    destruct (prisma.whereIdUser id u w) as [row|] eqn:Hrow; [|discriminate H].
    assert (∀ w2, fileProcessing w2 = fileProcessing w →
                  prisma.whereIdUser id u w2 = Some row) as Hsame.
    { intros w2 H2. rewrite <- Hrow. unfold prisma.whereIdUser. by rewrite H2. }
    apply whereIdUser_Some in Hrow as [Hrow Hu].
    destruct (bool_decide (status row ≠ FAILED)) eqn:Hst; [discriminate H|].
    apply bool_decide_eq_false in Hst.
    assert (status row = FAILED) as Hfailed
      by (destruct (decide (status row = FAILED)); [done|by destruct Hst]).
    match type of H with
    | match ?body w1 with _ => _ end = _ =>
        destruct (body w1) as [[resp|e] w2] eqn:Hbody; [|discriminate H]
    end.
    injection H as -> ->.
    apply bind_resolved_inv in Hbody as ([] & w3 & Hclear & Hrest).
    unfold FileProcessingService.clearProcessedData in Hclear.
    apply bind_resolved_inv in Hclear as (o2 & w4 & Hf2 & Hdel).
    apply findFirst_resolved_inv in Hf2 as [Hs2 ->].
    pose proof (sameStore_trans _ _ _ Hs1 Hs2) as (Ha4 & Hb4 & Hc4).
    rewrite (Hsame w1) in Hdel by apply Hs1.
    apply deleteMany_resolved_inv in Hdel as (Ha3 & Hb3 & Hc3).
    apply bind_resolved_inv in Hrest as ([j f] & w5 & Hretry & Hret).
    injection Hret as -> -> ->.
    unfold FileProcessingService.retryFileProcessing in Hretry.
    apply bind_resolved_inv in Hretry as (o3 & w6 & Hf3 & Hcont).
    apply findFirst_resolved_inv in Hf3 as [(Ha6 & Hb6 & Hc6) ->].
    rewrite (Hsame w3) in Hcont by congruence.
    apply bind_resolved_inv in Hcont as ([] & w7 & Hupd & Hcont).
    apply update_resolved_inv in Hupd as (r7 & Hr7 & Ha7 & Hb7 & Hc7).
    apply bind_resolved_inv in Hcont as (n & w8 & Hadd & Hret).
    injection Hret as -> -> ->.
    apply addJob_resolved_inv in Hadd as (Ha8 & Hb8 & Hc8).
    assert (r7 = row) as -> by congruence.
    exists row, (FileProcessingService.resetToPending row).
    split; [done|]. split; [by rewrite Hu|]. split; [done|].
    split; [congruence|]. split; [congruence|].
    repeat (split; [reflexivity|]). congruence.
  - intros r Hr -> Hst Hf. eexists _, _. by apply retry_quiet.
Qed.

Lemma retry_only_from_failed_witness :
  (∃ code message w',
     FileController.retryFileProcessing (Some 1%Z) 7 (failedWorld sampleRow)
     = (Resolved (FileController.response_error code message), w')
     ∧ fileProcessing w' = fileProcessing (failedWorld sampleRow)
     ∧ processedData w' = processedData (failedWorld sampleRow)
     ∧ queue w' = queue (failedWorld sampleRow))
  ∧ (∃ jobId w',
       FileController.retryFileProcessing (Some 1%Z) 7 (failedWorld failedRow)
       = (Resolved (FileController.response_success jobId 7), w')).
Proof.
  split.
  - apply (retry_only_from_failed (Some 1%Z) 7 (failedWorld sampleRow)).
    intros r Hr. vm_compute in Hr. injection Hr as <-. discriminate.
  - apply (retry_only_from_failed (Some 1%Z) 7 (failedWorld failedRow))
      with (r := failedRow); reflexivity.
Defined.

(** * More of the pipeline *)

(** ** Batching *)

Lemma slices_take_drop (records : list ProcessedData) c :
  ∀ a,
    ((λ k, k * batchSize) <$> seq a c) ≫= (λ i, slice i (i + batchSize) records)
    = take (c * batchSize) (drop (a * batchSize) records).
Proof.
  induction c as [|c IH]; intros a; [done|].
  cbn [seq]. rewrite fmap_cons, bind_cons, IH. unfold slice.
  replace (a * batchSize + batchSize - a * batchSize) with batchSize by lia.
  replace (S a * batchSize) with (a * batchSize + batchSize) by lia.
  rewrite <- drop_drop, take_take_drop. f_equal; lia.
Qed.

Lemma concat_fmap_bind {A B} (f : A → list B) (l : list A) :
  concat (f <$> l) = l ≫= f.
Proof. induction l as [|x l IH]; [done|]. by rewrite fmap_cons, bind_cons, <- IH. Qed.

Lemma batchStarts_in_range n i : i ∈ batchStarts n → (i < n)%nat.
Proof.
  unfold batchStarts. intros Hi.
  apply list_elem_of_fmap in Hi as (k & -> & Hk). apply elem_of_seq in Hk.
  unfold batchSize in *.
  pose proof (Nat.div_mod_eq (n + (100 - 1)) 100) as Hd.
  pose proof (Nat.mod_upper_bound (n + (100 - 1)) 100) as Hm.
  lia.
Qed.

Lemma batchLoop_createEach records starts :
  batchLoop records starts
  = createEach ((λ i, slice i (i + batchSize) records) <$> starts).
Proof.
  induction starts as [|i rest IH]; [done|].
  rewrite fmap_cons. cbn [batchLoop createEach]. by rewrite IH.
Qed.

(** X1: the batch loop calls [createMany] once per batch, and the batches are
    consecutive slices of the collected
    records: put end to end they are the whole list, none is empty and none
    holds more than [batchSize] records; there are
    ceil(length / batchSize) of them. *)
Theorem batches_partition (records : list ProcessedData) :
  batchLoop records (batchStarts (length records)) = createEach (batches records)
  ∧ concat (batches records) = records
  ∧ Forall (λ b, (1 ≤ length b ≤ batchSize)%nat) (batches records)
  ∧ length (batches records) = (length records + (batchSize - 1)) / batchSize.
Proof.
  unfold batches. split; [apply batchLoop_createEach|]. split; [|split].
  - rewrite concat_fmap_bind. unfold batchStarts.
    rewrite slices_take_drop, drop_0, take_ge; [done|].
    apply batchStarts_cover.
  - apply Forall_fmap, Forall_forall. intros i Hi.
    apply batchStarts_in_range in Hi. simpl. unfold slice.
    rewrite length_take, length_drop. unfold batchSize. lia.
  - unfold batchStarts. by rewrite !length_fmap, length_seq.
Qed.

(** ** The worker under any fault schedule *)

Lemma touched_touched id r1 r2 n1 n2 fs1 fs2 w :
  touched id r2 n2 fs2 (touched id r1 n1 fs1 w) = touched id r2 (n1 ++ n2) fs2 w.
Proof. unfold touched. simpl. by rewrite insert_insert_eq, app_assoc. Qed.

Lemma touched_same id r fs w :
  fileProcessing w !! id = Some r → set_faults fs w = touched id r [] fs w.
Proof.
  intros Hr. destruct w as [fp pd q fl fs0 ck]. unfold set_faults, touched.
  simpl in *. by rewrite insert_id, app_nil_r.
Qed.

Lemma touched_lookup id r new fs w :
  fileProcessing (touched id r new fs w) !! id = Some r.
Proof. apply lookup_insert_eq. Qed.

Lemma externalCall_frame w o w1 :
  externalCall w = (o, w1) → ∃ fs, w1 = set_faults fs w.
Proof.
  unfold externalCall. destruct w as [fp pd q fl fs ck]. simpl.
  destruct fs as [|[[|n] e] rest]; intros [= <- <-]; eauto.
Qed.

Lemma update_any id data w r o w1 :
  fileProcessing w !! id = Some r →
  prisma.fileProcessing_update id data w = (o, w1) →
  ∃ fs, (o = Resolved () ∧ w1 = touched id (data r) [] fs w)
        ∨ (∃ e, o = Rejected e ∧ w1 = touched id r [] fs w).
Proof.
  intros Hr Hrun.
  unfold prisma.fileProcessing_update, mbind, Async_bind, effect in Hrun.
  destruct (externalCall w) as [[[]|e] w2] eqn:Hc;
    apply externalCall_frame in Hc as [fs ->]; exists fs.
  - simpl in Hrun. rewrite Hr in Hrun. injection Hrun as <- <-.
    left. split; [done|].
    destruct w. unfold touched, set_fileProcessing. simpl. by rewrite app_nil_r.
  - injection Hrun as <- <-. right. exists e. split; [done|].
    by apply touched_same.
Qed.

Lemma update_missing id data w o w1 :
  fileProcessing w !! id = None →
  prisma.fileProcessing_update id data w = (o, w1) →
  ∃ e fs, o = Rejected e ∧ w1 = set_faults fs w.
Proof.
  intros Hr Hrun.
  unfold prisma.fileProcessing_update, mbind, Async_bind, effect in Hrun.
  destruct (externalCall w) as [[[]|e] w2] eqn:Hc;
    apply externalCall_frame in Hc as [fs ->].
  - simpl in Hrun. rewrite Hr in Hrun. injection Hrun as <- <-. eauto.
  - injection Hrun as <- <-. eauto.
Qed.

Lemma createMany_any id batch w r o w1 :
  fileProcessing w !! id = Some r →
  prisma.processedData_createMany batch w = (o, w1) →
  ∃ fs, (o = Resolved () ∧ w1 = touched id r batch fs w)
        ∨ (∃ e, o = Rejected e ∧ w1 = touched id r [] fs w).
Proof.
  intros Hr Hrun.
  unfold prisma.processedData_createMany, mbind, Async_bind, effect in Hrun.
  destruct (externalCall w) as [[[]|e] w2] eqn:Hc;
    apply externalCall_frame in Hc as [fs ->]; exists fs.
  - injection Hrun as <- <-. left. split; [done|].
    destruct w as [fp pd q fl fs0 ck]. unfold touched, set_processedData.
    simpl in *. by rewrite insert_id.
  - injection Hrun as <- <-. right. exists e. split; [done|].
    by apply touched_same.
Qed.

(** What the row loop has written to the progress column when it stops, by
    finishing or by a failed checkpoint. *)
Lemma rowLoop_any id data rowIndexes :
  ∀ acc cnt w r o w1,
    fileProcessing w !! id = Some r →
    rowLoop id data (headerRow data) rowIndexes acc cnt w = (o, w1) →
    ∃ p fs,
      w1 = touched id (withProcessedRows p r) [] fs w
      ∧ (p = processedRows r
         ∨ ∃ c, p = Some c ∧ (cnt < c ≤ cnt + length rowIndexes)%nat)
      ∧ (∀ res, o = Resolved res →
           res = (acc ++ (rowIndexes ≫= rowRecords id data),
                  cnt + length rowIndexes)).
Proof.
  induction rowIndexes as [|k rest IH]; intros acc cnt w r o w1 Hr Hrun.
  - simpl in Hrun. injection Hrun as <- <-.
    exists (processedRows r), (faults w). split; [|split].
    + destruct w as [fp pd q fl fs ck], r as [u url st rc tr pr em ca].
      unfold touched, withProcessedRows. simpl in *.
      by rewrite insert_id, app_nil_r.
    + by left.
    + intros res [= <-]. by rewrite app_nil_r, Nat.add_0_r.
  - cbn [rowLoop] in Hrun. unfold mbind, Async_bind in Hrun.
    cbn [length]. rewrite bind_cons, app_assoc.
    rewrite (colLoop_acc _ _ _ _ _ acc) in Hrun. fold (rowRecords id data k) in Hrun.
    case_bool_decide as Hten.
    + destruct (prisma.fileProcessing_update id (setProcessedRows (S cnt)) w)
        as [o1 w2] eqn:Hupd.
      apply (update_any _ _ _ r _ _ Hr) in Hupd as [fs [[-> ->]|(e & -> & ->)]].
      * apply (IH _ _ _ (setProcessedRows (S cnt) r) _ _ (touched_lookup _ _ _ _ _))
          in Hrun as (p & fs' & -> & Hp & Hres).
        rewrite touched_touched.
        destruct Hp as [->|(c & -> & Hc)].
        -- exists (Some (S cnt)), fs'. split; [done|]. split.
           ++ right. exists (S cnt). split; [done|]. lia.
           ++ intros res Ho. rewrite (Hres res Ho). f_equal. lia.
        -- exists (Some c), fs'. split; [done|]. split.
           ++ right. exists c. split; [done|]. lia.
           ++ intros res Ho. rewrite (Hres res Ho). f_equal. lia.
      * injection Hrun as <- <-. exists (processedRows r), fs. split; [|split].
        -- by destruct r.
        -- by left.
        -- done.
    + apply (IH _ _ _ r _ _ Hr) in Hrun as (p & fs' & -> & Hp & Hres).
      exists p, fs'. split; [done|]. split.
      * destruct Hp as [->|(c & -> & Hc)]; [by left|right]. eexists.
        split; [done|]. lia.
      * intros res Ho. rewrite (Hres res Ho). f_equal. lia.
Qed.

Lemma touched_noop id r w :
  fileProcessing w !! id = Some r → w = touched id r [] (faults w) w.
Proof.
  intros Hr. rewrite <- (touched_same id r (faults w) w Hr). by destruct w.
Qed.

Lemma batchLoop_any id records starts :
  ∀ w r o w1,
    fileProcessing w !! id = Some r →
    batchLoop records starts w = (o, w1) →
    ∃ stored fs,
      w1 = touched id r stored fs w
      ∧ stored `prefix_of` (starts ≫= λ i, slice i (i + batchSize) records)
      ∧ (o = Resolved () →
         stored = starts ≫= λ i, slice i (i + batchSize) records).
Proof.
  induction starts as [|i rest IH]; intros w r o w1 Hr Hrun.
  - injection Hrun as <- <-. exists [], (faults w).
    split; [by apply touched_noop|]. done.
  - cbn [batchLoop] in Hrun. unfold mbind, Async_bind in Hrun.
    destruct (prisma.processedData_createMany (slice i (i + batchSize) records) w)
      as [o1 w2] eqn:Hc.
    apply (createMany_any id _ _ r _ _ Hr) in Hc as [fs [[-> ->]|(e & -> & ->)]].
    + apply (IH _ r _ _ (touched_lookup _ _ _ _ _)) in Hrun
        as (stored & fs' & -> & Hpre & Hall).
      rewrite touched_touched. eexists _, fs'. split; [done|].
      rewrite bind_cons. split.
      * by apply prefix_app.
      * intros Ho. by rewrite (Hall Ho).
    + injection Hrun as <- <-. exists [], fs. split; [done|].
      split; [apply prefix_nil|done].
Qed.

Lemma sheetRecords_batches id data :
  batchStarts (length (sheetRecords id data))
    ≫= (λ i, slice i (i + batchSize) (sheetRecords id data))
  = sheetRecords id data.
Proof.
  unfold batchStarts. rewrite slices_take_drop, drop_0, take_ge; [done|].
  apply batchStarts_cover.
Qed.

Lemma processExcel_any job w r o w1 :
  fileProcessing w !! jd_fileProcessingId job = Some r →
  processExcel job w = (o, w1) →
  ∃ r1 stored fs,
    w1 = touched (jd_fileProcessingId job) r1 stored fs w
    ∧ tryState job w r o r1 stored.
Proof.
  intros Hr Hrun. unfold processExcel in Hrun.
  set (id := jd_fileProcessingId job) in *.
  set (rc := default 0 (jd_retryCount job)) in *.
  unfold mbind at 1, Async_bind at 1 in Hrun.
  destruct (prisma.fileProcessing_update id (markInProgress rc) w)
    as [o1 w2] eqn:H1.
  apply (update_any _ _ _ r _ _ Hr) in H1 as [fs1 [[-> ->]|(e & -> & ->)]].
  2: { injection Hrun as <- <-. eexists _, _, _. split; [done|]. constructor. }
  unfold mbind at 1, Async_bind at 1, readSheet at 1 in Hrun.
  simpl files in Hrun.
  destruct (files w !! jd_fileUrl job) as [data|] eqn:Hfile.
  2: { injection Hrun as <- <-. eexists _, _, _. split; [done|].
       apply stopped_before_total. by left. }
  case_bool_decide as Hlen.
  { injection Hrun as <- <-. eexists _, _, _. split; [done|].
    apply stopped_before_total. right. left. by destruct data. }
  assert (data ≠ []) as Hdata by (by destruct data).
  unfold mbind at 1, Async_bind at 1 in Hrun.
  destruct (prisma.fileProcessing_update id (setTotalRows (length data - 1))
              (touched id (markInProgress rc r) [] fs1 w)) as [o2 w3] eqn:H2.
  apply (update_any _ _ _ _ _ _ (touched_lookup _ _ _ _ _)) in H2
    as [fs2 [[-> ->]|(e & -> & ->)]]; rewrite touched_touched in *.
  2: { injection Hrun as <- <-. eexists _, _, _. split; [done|].
       apply stopped_before_total. right. right. eauto. }
  unfold mbind at 1, Async_bind at 1 in Hrun.
  destruct (rowLoop id data (headerRow data) (seq 1 (length data - 1)) [] 0
              (touched id (setTotalRows (length data - 1) (markInProgress rc r))
                 ([] ++ []) fs2 w)) as [o3 w4] eqn:H3.
  apply (rowLoop_any _ _ _ _ _ _ _ _ _ (touched_lookup _ _ _ _ _)) in H3
    as (p & fs3 & -> & Hp & Hres). rewrite touched_touched in Hrun.
  rewrite length_seq in Hp, Hres.
  assert (p = processedRows r
          ∨ ∃ c, p = Some c ∧ (0 < c ≤ length data - 1)%nat) as Hp'.
  { destruct Hp as [->|(c & -> & Hc)]; [by left|right]. exists c.
    split; [done|lia]. }
  destruct o3 as [[records cnt]|e].
  2: { injection Hrun as <- <-. eexists _, _, _. split; [done|].
       apply (stopped_after_total _ _ _ _ data p); [done|done|done|].
       apply prefix_nil. }
  specialize (Hres _ eq_refl). injection Hres as -> ->.
  fold (sheetRecords id data) in Hrun.
  unfold mbind at 1, Async_bind at 1 in Hrun.
  match type of Hrun with
  | context [batchLoop ?recs ?starts ?w0] =>
      destruct (batchLoop recs starts w0) as [o4 w5] eqn:H4
  end.
  apply (batchLoop_any id _ _ _ _ _ _ (touched_lookup _ _ _ _ _)) in H4
    as (stored & fs4 & -> & Hpre & Hall).
  rewrite sheetRecords_batches in Hpre, Hall. rewrite touched_touched in Hrun.
  destruct o4 as [[]|e].
  2: { injection Hrun as <- <-. eexists _, _, _. split; [done|].
       by apply (stopped_after_total _ _ _ _ data p). }
  specialize (Hall eq_refl). subst stored.
  unfold mbind at 1, Async_bind at 1, newDate at 1 in Hrun.
  unfold mbind at 1, Async_bind at 1 in Hrun. simpl clock in Hrun.
  match type of Hrun with
  | context [prisma.fileProcessing_update ?i ?d ?w0] =>
      destruct (prisma.fileProcessing_update i d w0) as [o5 w6] eqn:H5
  end.
  apply (update_any _ _ _ _ _ _ (touched_lookup _ _ _ _ _)) in H5
    as [fs5 [[-> ->]|(e & -> & ->)]]; rewrite touched_touched in Hrun.
  - injection Hrun as <- <-. eexists _, _, _. split; [done|].
    simpl. rewrite app_nil_r. by apply ran_to_the_end.
  - injection Hrun as <- <-. eexists _, _, _. split; [done|].
    simpl. rewrite app_nil_r.
    apply (stopped_after_total _ _ _ _ data p); done.
Qed.

Lemma handleExcelJob_any job w r o w' :
  fileProcessing w !! jd_fileProcessingId job = Some r →
  handleExcelJob job w = (o, w') →
  ∃ o1 r1 stored fs,
    tryState job w r o1 r1 stored
    ∧ ((∃ n, o1 = Resolved n ∧ o = Resolved n
             ∧ w' = touched (jd_fileProcessingId job) r1 stored fs w)
       ∨ (∃ e, o1 = Rejected e
               ∧ ((o = Rejected e
                   ∧ w' = touched (jd_fileProcessingId job)
                            (markFailed (errorText e) r1) stored fs w)
                  ∨ (∃ e', o = Rejected e'
                           ∧ w' = touched (jd_fileProcessingId job) r1 stored fs w)))).
Proof.
  intros Hr Hrun. unfold handleExcelJob, try_catch in Hrun.
  destruct (processExcel job w) as [o1 w1] eqn:Htry.
  apply (processExcel_any _ _ r _ _ Hr) in Htry as (r1 & stored & fs & -> & Hst).
  exists o1, r1, stored. destruct o1 as [n|e].
  - injection Hrun as <- <-. exists fs. split; [done|]. left. eauto.
  - unfold onFailure, mbind, Async_bind in Hrun.
    match type of Hrun with
    | context [prisma.fileProcessing_update ?i ?d ?w0] =>
        destruct (prisma.fileProcessing_update i d w0) as [o2 w2] eqn:Hupd
    end.
    apply (update_any _ _ _ _ _ _ (touched_lookup _ _ _ _ _)) in Hupd
      as [fs2 [[-> ->]|(e' & -> & ->)]]; rewrite touched_touched, app_nil_r in Hrun;
      injection Hrun as <- <-; exists fs2; (split; [done|]); right; exists e.
    + split; [done|]. by left.
    + split; [done|]. right. eauto.
Qed.

Lemma sheetRecords_cells id data :
  sheetRecords id data
  = recordOf id data <$>
      filter (λ rc, ¬ blank (cellAt data rc)) (dataCells data).
Proof. unfold sheetRecords. by rewrite bind_rowRecords_cells. Qed.

Lemma sheetRecords_id id data :
  Forall (λ rec, fileProcessingId rec = id) (sheetRecords id data).
Proof.
  rewrite sheetRecords_cells. apply Forall_fmap, Forall_forall. done.
Qed.

Lemma handleExcelJob_resolved job w r n w' :
  fileProcessing w !! jd_fileProcessingId job = Some r →
  handleExcelJob job w = (Resolved n, w') →
  ∃ data r',
    files w !! jd_fileUrl job = Some data
    ∧ data ≠ []
    ∧ n = length data - 1
    ∧ fileProcessing w' !! jd_fileProcessingId job = Some r'
    ∧ status r' = COMPLETED
    ∧ totalRows r' = Some n
    ∧ processedRows r' = Some n
    ∧ completedAt r' = Some (clock w)
    ∧ retryCount r' = default 0 (jd_retryCount job)
    ∧ errorMessage r' = errorMessage r
    ∧ processedData w'
      = processedData w
        ++ (recordOf (jd_fileProcessingId job) data <$>
              filter (λ rc, ¬ blank (cellAt data rc)) (dataCells data)).
Proof.
  intros Hr Hrun.
  apply (handleExcelJob_any _ _ r _ _ Hr) in Hrun
    as (o1 & r1 & stored & fs & Hst & [(m & -> & [= <-] & ->)|(e & _ & [[? _]|(e' & ? & _)])]);
    [|done|done].
  inversion Hst as [| | |data Hfile Hdata]; subst.
  exists data, (completedRow job (length data - 1) (clock w) r).
  split; [done|]. split; [done|]. split; [done|].
  split; [apply touched_lookup|]. simpl. by rewrite sheetRecords_cells.
Qed.

(** X2: whatever the fault schedule, a run that resolves has gone through to the
    end: the sheet has a header row, the value resolved is the number of
    data rows, the job is COMPLETED with totalRows and processedRows equal
    to that number, completedAt is the time of the run, retryCount is the
    job data's (0 when absent), errorMessage is left as it was, and the
    store has gained exactly the records of the non-blank cells. *)
Theorem resolved_run_is_complete job w r n w' :
  fileProcessing w !! jd_fileProcessingId job = Some r →
  handleExcelJob job w = (Resolved n, w') →
  ∃ data r',
    files w !! jd_fileUrl job = Some data
    ∧ data ≠ []
    ∧ n = length data - 1
    ∧ fileProcessing w' !! jd_fileProcessingId job = Some r'
    ∧ status r' = COMPLETED
    ∧ totalRows r' = Some n
    ∧ processedRows r' = Some n
    ∧ completedAt r' = Some (clock w)
    ∧ retryCount r' = default 0 (jd_retryCount job)
    ∧ errorMessage r' = errorMessage r
    ∧ processedData w'
      = processedData w
        ++ (recordOf (jd_fileProcessingId job) data <$>
              filter (λ rc, ¬ blank (cellAt data rc)) (dataCells data)).
Proof. exact (handleExcelJob_resolved job w r n w'). Qed.

Lemma resolved_run_is_complete_witness :
  ∃ data r',
    files (sampleWorld peopleSheet [(9, outage)]) !! "upload.xlsx" = Some data
    ∧ data ≠ []
    ∧ 2 = length data - 1
    ∧ fileProcessing
        (handleExcelJob sampleJob (sampleWorld peopleSheet [(9, outage)])).2
        !! 7%Z = Some r'
    ∧ status r' = COMPLETED
    ∧ totalRows r' = Some 2
    ∧ processedRows r' = Some 2
    ∧ completedAt r' = Some 1000
    ∧ retryCount r' = 0
    ∧ errorMessage r' = None
    ∧ processedData
        (handleExcelJob sampleJob (sampleWorld peopleSheet [(9, outage)])).2
      = [] ++ (recordOf 7 data <$>
                 filter (λ rc, ¬ blank (cellAt data rc)) (dataCells data)).
Proof.
  apply (resolved_run_is_complete sampleJob
           (sampleWorld peopleSheet [(9, outage)]) sampleRow 2
           (handleExcelJob sampleJob (sampleWorld peopleSheet [(9, outage)])).2);
    [reflexivity|vm_compute; reflexivity].
Defined.

(** X3: whatever the fault schedule, a run that rejects with e never sets
    completedAt, and leaves the job either FAILED with e's message (the
    catch block's write went through) or, when that write failed too, with
    its errorMessage untouched and its status the one it had or
    IN_PROGRESS. *)
Theorem rejected_run_is_marked job w r e w' :
  fileProcessing w !! jd_fileProcessingId job = Some r →
  handleExcelJob job w = (Rejected e, w') →
  ∃ r',
    fileProcessing w' !! jd_fileProcessingId job = Some r'
    ∧ completedAt r' = completedAt r
    ∧ ((status r' = FAILED ∧ errorMessage r' = Some (errorText e))
       ∨ (errorMessage r' = errorMessage r
          ∧ (status r' = status r ∨ status r' = IN_PROGRESS))).
Proof.
  intros Hr Hrun.
  apply (handleExcelJob_any _ _ r _ _ Hr) in Hrun
    as (o1 & r1 & stored & fs & Hst
        & [(m & _ & ? & _)|(e1 & -> & [[[= <-] ->]|(e' & _ & ->)])]); [done|..];
    eexists; (split; [apply touched_lookup|]);
    inversion Hst; subst; simpl; eauto.
Qed.

Lemma rejected_run_is_marked_witness :
  ∃ r',
    fileProcessing
      (handleExcelJob sampleJob (sampleWorld peopleSheet [(2, outage)])).2
      !! 7%Z = Some r'
    ∧ completedAt r' = None
    ∧ ((status r' = FAILED ∧ errorMessage r' = Some "store unavailable")
       ∨ (errorMessage r' = None
          ∧ (status r' = PENDING ∨ status r' = IN_PROGRESS))).
Proof.
  apply (rejected_run_is_marked sampleJob (sampleWorld peopleSheet [(2, outage)])
           sampleRow outage
           (handleExcelJob sampleJob (sampleWorld peopleSheet [(2, outage)])).2);
    [reflexivity|vm_compute; reflexivity].
Defined.

(** X4: whatever the fault schedule and the outcome, the progress the worker
    leaves in processedRows is the old value or a count of rows of the
    sheet that does not exceed totalRows, which the worker has written
    before it. *)
Theorem progress_within_total job w r o w' :
  fileProcessing w !! jd_fileProcessingId job = Some r →
  handleExcelJob job w = (o, w') →
  ∃ r',
    fileProcessing w' !! jd_fileProcessingId job = Some r'
    ∧ (processedRows r' = processedRows r
       ∨ ∃ data c,
           files w !! jd_fileUrl job = Some data
           ∧ processedRows r' = Some c
           ∧ totalRows r' = Some (length data - 1)
           ∧ (c ≤ length data - 1)%nat).
Proof.
  intros Hr Hrun.
  apply (handleExcelJob_any _ _ r _ _ Hr) in Hrun
    as (o1 & r1 & stored & fs & Hst
        & [(m & _ & _ & ->)|(e1 & _ & [[_ ->]|(e' & _ & ->)])]);
    eexists; (split; [apply touched_lookup|]);
    inversion Hst as [| |? data p ? Hfile Hdata Hp|data Hfile Hdata]; subst; simpl;
    try (by left);
    try (destruct Hp as [->|(c & -> & Hc)]; [by left|]);
    right; eexists data, _; (split; [done|]); (split; [done|]); (split; [done|]); lia.
Qed.

Lemma progress_within_total_witness :
  ∃ r',
    fileProcessing
      (handleExcelJob sampleJob (sampleWorld tenRowSheet [(3, outage)])).2
      !! 7%Z = Some r'
    ∧ (processedRows r' = None
       ∨ ∃ data c,
           files (sampleWorld tenRowSheet [(3, outage)]) !! "upload.xlsx" = Some data
           ∧ processedRows r' = Some c
           ∧ totalRows r' = Some (length data - 1)
           ∧ (c ≤ length data - 1)%nat).
Proof.
  apply (progress_within_total sampleJob (sampleWorld tenRowSheet [(3, outage)])
           sampleRow
           (handleExcelJob sampleJob (sampleWorld tenRowSheet [(3, outage)])).1
           (handleExcelJob sampleJob (sampleWorld tenRowSheet [(3, outage)])).2);
    [reflexivity|vm_compute; reflexivity].
Defined.

Lemma handleExcelJob_missing_row job w o w' :
  fileProcessing w !! jd_fileProcessingId job = None →
  handleExcelJob job w = (o, w') →
  ∃ e fs, o = Rejected e ∧ w' = set_faults fs w.
Proof.
  intros Hr Hrun. unfold handleExcelJob, try_catch, processExcel in Hrun.
  unfold mbind at 1, Async_bind at 1 in Hrun.
  match type of Hrun with
  | context [prisma.fileProcessing_update ?i ?d w] =>
      destruct (prisma.fileProcessing_update i d w) as [o1 w1] eqn:H1
  end.
  apply (update_missing _ _ _ _ _ Hr) in H1 as (e & fs & -> & ->).
  unfold onFailure, mbind, Async_bind in Hrun.
  match type of Hrun with
  | context [prisma.fileProcessing_update ?i ?d ?w0] =>
      destruct (prisma.fileProcessing_update i d w0) as [o2 w2] eqn:H2
  end.
  apply update_missing in H2 as (e' & fs' & -> & ->); [|done].
  injection Hrun as <- <-. by exists e', fs'.
Qed.

Lemma tryState_keeps job w r o r1 stored :
  tryState job w r o r1 stored →
  userId r1 = userId r ∧ fileUrl r1 = fileUrl r
  ∧ Forall (λ rec, fileProcessingId rec = jd_fileProcessingId job) stored.
Proof.
  intros Hst. destruct Hst as [| |? data p ? Hfile Hdata Hp Hpre|data Hfile Hdata];
    simpl; repeat split; try done.
  - destruct Hpre as [k Hk].
    pose proof (sheetRecords_id (jd_fileProcessingId job) data) as Hall.
    rewrite Hk in Hall. by apply Forall_app in Hall as [? _].
  - apply sheetRecords_id.
Qed.

Lemma handleExcelJob_footprint job w o w' :
  handleExcelJob job w = (o, w') →
  queue w' = queue w
  ∧ files w' = files w
  ∧ clock w' = clock w
  ∧ (∀ id', id' ≠ jd_fileProcessingId job →
       fileProcessing w' !! id' = fileProcessing w !! id')
  ∧ match fileProcessing w !! jd_fileProcessingId job with
    | None => fileProcessing w' !! jd_fileProcessingId job = None
    | Some r =>
        ∃ r', fileProcessing w' !! jd_fileProcessingId job = Some r'
              ∧ userId r' = userId r ∧ fileUrl r' = fileUrl r
    end
  ∧ ∃ stored,
      processedData w' = processedData w ++ stored
      ∧ Forall (λ rec, fileProcessingId rec = jd_fileProcessingId job) stored.
Proof.
  destruct (fileProcessing w !! jd_fileProcessingId job) as [r|] eqn:Hr;
    intros Hrun.
  - apply (handleExcelJob_any _ _ r _ _ Hr) in Hrun
      as (o1 & r1 & stored & fs & Hst & Hw').
    destruct (tryState_keeps _ _ _ _ _ _ Hst) as (Hu & Hurl & Hid).
    assert (∃ r', w' = touched (jd_fileProcessingId job) r' stored fs w
                  ∧ userId r' = userId r ∧ fileUrl r' = fileUrl r) as (r' & -> & ? & ?).
    { destruct Hw' as [(m & _ & _ & ->)|(e1 & _ & [[_ ->]|(e' & _ & ->)])];
        eexists; (split; [done|]); done. }
    simpl. repeat split; try done.
    + intros id' Hne. by apply lookup_insert_ne.
    + exists r'. split; [apply lookup_insert_eq|done].
    + by exists stored.
  - apply (handleExcelJob_missing_row _ _ _ _ Hr) in Hrun as (e & fs & -> & ->).
    simpl. repeat split; try done. exists []. by rewrite app_nil_r.
Qed.

(** X5: whatever the fault schedule and the outcome, a run of the worker writes
    only the job's own row and only adds records of that job: the queue,
    the files, every other job's row and all records already stored are
    left as they were, no row is created or deleted, and the job's row
    keeps its owner and its file. *)
Theorem worker_footprint job w o w' :
  handleExcelJob job w = (o, w') →
  queue w' = queue w
  ∧ files w' = files w
  ∧ clock w' = clock w
  ∧ (∀ id', id' ≠ jd_fileProcessingId job →
       fileProcessing w' !! id' = fileProcessing w !! id')
  ∧ match fileProcessing w !! jd_fileProcessingId job with
    | None => fileProcessing w' !! jd_fileProcessingId job = None
    | Some r =>
        ∃ r', fileProcessing w' !! jd_fileProcessingId job = Some r'
              ∧ userId r' = userId r ∧ fileUrl r' = fileUrl r
    end
  ∧ ∃ stored,
      processedData w' = processedData w ++ stored
      ∧ Forall (λ rec, fileProcessingId rec = jd_fileProcessingId job) stored.
Proof. exact (handleExcelJob_footprint job w o w'). Qed.

Lemma worker_footprint_witness :
  let w := failedWorld sampleRow in
  let w' := (handleExcelJob sampleJob w).2 in
  queue w' = queue w
  ∧ files w' = files w
  ∧ clock w' = clock w
  ∧ (∀ id', id' ≠ 7%Z → fileProcessing w' !! id' = fileProcessing w !! id')
  ∧ match fileProcessing w !! 7%Z with
    | None => fileProcessing w' !! 7%Z = None
    | Some r =>
        ∃ r', fileProcessing w' !! 7%Z = Some r'
              ∧ userId r' = userId r ∧ fileUrl r' = fileUrl r
    end
  ∧ ∃ stored,
      processedData w' = processedData w ++ stored
      ∧ Forall (λ rec, fileProcessingId rec = 7%Z) stored.
Proof.
  apply (worker_footprint sampleJob (failedWorld sampleRow)
           (handleExcelJob sampleJob (failedWorld sampleRow)).1).
  vm_compute. reflexivity.
Defined.

(** X6: whatever the fault schedule, a job whose source is missing or has no
    row at all never resolves and never stores a record, and its
    totalRows and processedRows are left as they were. *)
Theorem no_sheet_no_records job w r o w' :
  fileProcessing w !! jd_fileProcessingId job = Some r →
  files w !! jd_fileUrl job = None ∨ files w !! jd_fileUrl job = Some [] →
  handleExcelJob job w = (o, w') →
  (∃ e, o = Rejected e)
  ∧ processedData w' = processedData w
  ∧ ∃ r',
      fileProcessing w' !! jd_fileProcessingId job = Some r'
      ∧ totalRows r' = totalRows r
      ∧ processedRows r' = processedRows r.
Proof.
  intros Hr Hsrc Hrun.
  apply (handleExcelJob_any _ _ r _ _ Hr) in Hrun
    as (o1 & r1 & stored & fs & Hst & Hw').
  assert (stored = [] ∧ totalRows r1 = totalRows r
          ∧ processedRows r1 = processedRows r ∧ ∃ e, o1 = Rejected e)
    as (-> & Ht & Hp & e0 & ->).
  { inversion Hst as [| |? data p ? Hfile Hdata|data Hfile Hdata]; subst;
      try (by eauto);
      destruct Hsrc as [Hsrc|Hsrc]; rewrite Hsrc in Hfile; congruence. }
  destruct Hw' as [(m & ? & _)|(e1 & _ & [[-> ->]|(e' & -> & ->)])]; [done|..];
    (split; [eauto|]); simpl; rewrite app_nil_r; (split; [done|]);
    eexists; (split; [apply lookup_insert_eq|]); done.
Qed.

Lemma no_sheet_no_records_witness :
  let w := sampleWorld [] [(1, outage)] in
  (∃ e, (handleExcelJob sampleJob w).1 = Rejected e)
  ∧ processedData (handleExcelJob sampleJob w).2 = processedData w
  ∧ ∃ r',
      fileProcessing (handleExcelJob sampleJob w).2 !! 7%Z = Some r'
      ∧ totalRows r' = None
      ∧ processedRows r' = None.
Proof.
  apply (no_sheet_no_records sampleJob (sampleWorld [] [(1, outage)]) sampleRow
           (handleExcelJob sampleJob (sampleWorld [] [(1, outage)])).1
           (handleExcelJob sampleJob (sampleWorld [] [(1, outage)])).2);
    [reflexivity|right; reflexivity|vm_compute; reflexivity].
Defined.

(** ** Redelivery, in general *)

(** The outcome of a delivery is the outcome of one execution of the
    handler, run on a world that earlier, rejected executions have changed
    only in the job's row and by records of the job. *)
Lemma redeliver_any job n :
  ∀ w r o w',
    fileProcessing w !! jd_fileProcessingId job = Some r →
    redeliver n job w = (o, w') →
    ∃ w0 r0 junk,
      handleExcelJob job w0 = (o, w')
      ∧ fileProcessing w0 !! jd_fileProcessingId job = Some r0
      ∧ files w0 = files w
      ∧ processedData w0 = processedData w ++ junk
      ∧ Forall (λ rec, fileProcessingId rec = jd_fileProcessingId job) junk.
Proof.
  induction n as [|n IH]; intros w r o w' Hr Hrun.
  - exists w, r, []. by rewrite app_nil_r.
  - cbn [redeliver] in Hrun. unfold try_catch in Hrun.
    destruct (handleExcelJob job w) as [[m|e] w1] eqn:H1.
    + injection Hrun as <- <-. exists w, r, []. by rewrite app_nil_r.
    + pose proof (handleExcelJob_footprint _ _ _ _ H1)
        as (_ & Hfiles & _ & _ & Hrow & stored & Hpd & Hid).
      rewrite Hr in Hrow. destruct Hrow as (r1 & Hr1 & _).
      apply (IH _ r1 _ _ Hr1) in Hrun
        as (w0 & r0 & junk & Hrun & Hr0 & Hfiles0 & Hpd0 & Hid0).
      exists w0, r0, (stored ++ junk). split; [done|]. split; [done|].
      split; [congruence|]. split.
      * by rewrite Hpd0, Hpd, app_assoc.
      * by apply Forall_app.
Qed.

(** X7: whatever the fault schedule, when a delivery (up to three executions of
    the handler) resolves, the job is COMPLETED with totalRows and
    processedRows both the number of data rows; retryCount does not count
    the executions: it is the job data's retryCount, 0 when absent.  The
    store has gained the sheet's records, after whatever records of the
    same job the rejected executions had stored. *)
Theorem delivered_job_is_complete job w r n w' :
  fileProcessing w !! jd_fileProcessingId job = Some r →
  deliver job w = (Resolved n, w') →
  ∃ data r' junk,
    files w !! jd_fileUrl job = Some data
    ∧ n = length data - 1
    ∧ fileProcessing w' !! jd_fileProcessingId job = Some r'
    ∧ status r' = COMPLETED
    ∧ totalRows r' = Some n
    ∧ processedRows r' = Some n
    ∧ retryCount r' = default 0 (jd_retryCount job)
    ∧ processedData w'
      = processedData w ++ junk ++ sheetRecords (jd_fileProcessingId job) data
    ∧ Forall (λ rec, fileProcessingId rec = jd_fileProcessingId job) junk.
Proof.
  intros Hr Hrun. unfold deliver in Hrun.
  apply (redeliver_any _ _ _ r _ _ Hr) in Hrun
    as (w0 & r0 & junk & Hrun & Hr0 & Hfiles0 & Hpd0 & Hid0).
  apply (handleExcelJob_resolved _ _ r0 _ _ Hr0) in Hrun
    as (data & r' & Hfile & _ & -> & Hr' & Hst & Ht & Hp & _ & Hrc & _ & Hpd).
  exists data, r', junk. rewrite Hfiles0 in Hfile.
  repeat (split; [done|]). split; [|done].
  by rewrite Hpd, Hpd0, <- sheetRecords_cells, app_assoc.
Qed.

Lemma delivered_job_is_complete_witness :
  let w := sampleWorld oneRowSheet [(3, outage); (3, outage)] in
  ∃ data r' junk,
    files w !! "upload.xlsx" = Some data
    ∧ 1 = length data - 1
    ∧ fileProcessing (deliver sampleJob w).2 !! 7%Z = Some r'
    ∧ status r' = COMPLETED
    ∧ totalRows r' = Some 1
    ∧ processedRows r' = Some 1
    ∧ retryCount r' = 0
    ∧ processedData (deliver sampleJob w).2 = [] ++ junk ++ sheetRecords 7 data
    ∧ Forall (λ rec, fileProcessingId rec = 7%Z) junk.
Proof.
  apply (delivered_job_is_complete sampleJob
           (sampleWorld oneRowSheet [(3, outage); (3, outage)]) sampleRow 1
           (deliver sampleJob
              (sampleWorld oneRowSheet [(3, outage); (3, outage)])).2);
    [reflexivity|vm_compute; reflexivity].
Defined.

(** ** The stored pairs of one run *)

Lemma NoDup_dataCells data : NoDup (dataCells data).
Proof.
  unfold dataCells. apply NoDup_bind.
  - intros k1 k2 rc _ _ H1 H2.
    apply list_elem_of_fmap in H1 as (c1 & -> & _).
    apply list_elem_of_fmap in H2 as (c2 & [= -> _] & _). done.
  - intros k _. apply NoDup_fmap_2; [|apply NoDup_seq]. by intros c1 c2 [= ->].
  - apply NoDup_seq.
Qed.

Lemma at_lookup (l : list JsValue) i : (i < length l)%nat → l !! i = Some (at_ l i).
Proof.
  intros Hi. unfold at_. destruct (l !! i) eqn:Hl; [done|].
  apply lookup_ge_None in Hl. lia.
Qed.

Lemma filter_id_app id (old new : list ProcessedData) :
  Forall (λ rec, fileProcessingId rec ≠ id) old →
  Forall (λ rec, fileProcessingId rec = id) new →
  filter (λ rec, fileProcessingId rec = id) (old ++ new) = new.
Proof.
  intros Hold Hnew. rewrite filter_app.
  assert (filter (λ rec, fileProcessingId rec = id) old = []) as ->.
  { induction Hold as [|x l Hx _ IH]; [done|]. by rewrite filter_cons_False. }
  induction Hnew as [|x l Hx _ IH]; [done|].
  simpl in *. rewrite filter_cons_True by done. by rewrite IH.
Qed.

(** X8: when the header's column names are pairwise distinct and the job has no
    record in the store yet, the (rowNumber, columnName) pairs stored for
    the job after a run in which no call fails are pairwise distinct. *)
Theorem distinct_headers_give_unique_pairs job w r data :
  faults w = [] →
  fileProcessing w !! jd_fileProcessingId job = Some r →
  files w !! jd_fileUrl job = Some data →
  data ≠ [] →
  NoDup (headerRow data) →
  Forall (λ rec, fileProcessingId rec ≠ jd_fileProcessingId job) (processedData w) →
  ∃ n w',
    handleExcelJob job w = (Resolved n, w')
    ∧ NoDup (storedKeys (jd_fileProcessingId job) w').
Proof.
  intros Hf Hr Hfile Hdata Hhead Hold.
  eexists _, _. split; [by apply handleExcelJob_quiet|].
  unfold storedKeys. simpl processedData.
  fold (sheetRecords (jd_fileProcessingId job) data).
  rewrite filter_id_app; [|done|apply sheetRecords_id].
  rewrite sheetRecords_cells, <- list_fmap_compose.
  apply NoDup_fmap_2_strong; [|apply NoDup_filter, NoDup_dataCells].
  intros [k1 c1] [k2 c2] H1 H2 Heq.
  apply list_elem_of_filter in H1 as [_ H1], H2 as [_ H2].
  apply elem_of_dataCells in H1 as [_ H1], H2 as [_ H2].
  simpl in *. injection Heq as Hk Hc.
  apply at_lookup in H1, H2. rewrite Hc in H1.
  f_equal; [lia|]. by eapply NoDup_lookup.
Qed.

Lemma distinct_headers_give_unique_pairs_witness :
  ∃ n w',
    handleExcelJob sampleJob (sampleWorld peopleSheet []) = (Resolved n, w')
    ∧ NoDup (storedKeys 7 w').
Proof.
  apply (distinct_headers_give_unique_pairs sampleJob (sampleWorld peopleSheet [])
           sampleRow peopleSheet);
    [reflexivity|reflexivity|reflexivity|discriminate| |constructor].
  apply NoDup_cons. split; [|apply NoDup_singleton].
  rewrite list_elem_of_singleton. discriminate.
Defined.

(** ** Retry, then the worker *)

Lemma filter_all {A} (P : A → Prop) `{∀ x, Decision (P x)} (l : list A) :
  Forall P l → filter P l = l.
Proof.
  induction 1 as [|x l Hx _ IH]; [done|]. by rewrite filter_cons_True, IH.
Qed.

Lemma filter_none {A} (P : A → Prop) `{∀ x, Decision (P x)} (l : list A) :
  Forall (λ x, ¬ P x) l → filter P l = [].
Proof.
  induction 1 as [|x l Hx _ IH]; [done|]. by rewrite filter_cons_False.
Qed.

Lemma Forall_filter_self {A} (P : A → Prop) `{∀ x, Decision (P x)} (l : list A) :
  Forall P (filter P l).
Proof. apply Forall_forall. intros x Hx. by apply list_elem_of_filter in Hx as [? _]. Qed.

(** X9: a manual retry followed by the worker on the job the retry enqueued
    (no call failing, the upload still on disk with a header row): the job
    ends COMPLETED with errorMessage null, the records stored for it are
    exactly the records of one extraction of the sheet, whatever the failed
    attempts had left, and the records of other jobs are untouched. *)
Theorem retry_then_reprocess u id w r data :
  faults w = [] →
  fileProcessing w !! id = Some r →
  userId r = u →
  status r = FAILED →
  files w !! fileUrl r = Some data →
  data ≠ [] →
  ∃ jobId w1 job w2 r2,
    FileController.retryFileProcessing (Some u) id w
    = (Resolved (FileController.response_success jobId id), w1)
    ∧ last (queue w1) = Some ("process-excel-retry", job)
    ∧ handleExcelJob job w1 = (Resolved (length data - 1), w2)
    ∧ fileProcessing w2 !! id = Some r2
    ∧ status r2 = COMPLETED
    ∧ errorMessage r2 = None
    ∧ totalRows r2 = Some (length data - 1)
    ∧ processedRows r2 = Some (length data - 1)
    ∧ filter (λ rec, fileProcessingId rec = id) (processedData w2)
      = sheetRecords id data
    ∧ filter (λ rec, fileProcessingId rec ≠ id) (processedData w2)
      = filter (λ rec, fileProcessingId rec ≠ id) (processedData w).
Proof.
  intros Hf Hr Hu Hst Hfile Hdata.
  eexists _, _, (mkExcelJobData (fileUrl r) id None), _, _.
  split; [by apply retry_quiet|]. split; [apply last_snoc|].
  split.
  { apply (handleExcelJob_quiet _ _ (FileProcessingService.resetToPending r) data);
      [done|apply lookup_insert_eq|done|done]. }
  split; [apply lookup_insert_eq|]. simpl.
  repeat (split; [done|]).
  fold (sheetRecords id data). split.
  - apply filter_id_app; [apply Forall_filter_self|apply sheetRecords_id].
  - rewrite filter_app, (filter_all _ (filter _ _)) by apply Forall_filter_self.
    rewrite (filter_none _ (sheetRecords id data)); [apply app_nil_r|].
    eapply Forall_impl; [apply sheetRecords_id|]. intros rec Hrec Hne. by apply Hne.
Qed.

Lemma retry_then_reprocess_witness :
  ∃ jobId w1 job w2 r2,
    FileController.retryFileProcessing (Some 1%Z) 7 (failedWorld failedRow)
    = (Resolved (FileController.response_success jobId 7), w1)
    ∧ last (queue w1) = Some ("process-excel-retry", job)
    ∧ handleExcelJob job w1 = (Resolved 2, w2)
    ∧ fileProcessing w2 !! 7%Z = Some r2
    ∧ status r2 = COMPLETED
    ∧ errorMessage r2 = None
    ∧ totalRows r2 = Some 2
    ∧ processedRows r2 = Some 2
    ∧ filter (λ rec, fileProcessingId rec = 7%Z) (processedData w2)
      = sheetRecords 7 peopleSheet
    ∧ filter (λ rec, fileProcessingId rec ≠ 7%Z) (processedData w2)
      = filter (λ rec, fileProcessingId rec ≠ 7%Z)
          (processedData (failedWorld failedRow)).
Proof.
  apply (retry_then_reprocess 1 7 (failedWorld failedRow) failedRow peopleSheet);
    [reflexivity|reflexivity|reflexivity|reflexivity|reflexivity|discriminate].
Defined.

(** X10: a job whose source has no row at all uses up its three executions (no
    store call failing): the delivery rejects with NO_DATA_FOUND and leaves
    the job FAILED with that message, no record stored and nothing
    enqueued; the retry endpoint then accepts the job and puts it back to
    PENDING with errorMessage null. *)
Theorem exhausted_job_can_be_retried job w r :
  faults w = [] →
  fileProcessing w !! jd_fileProcessingId job = Some r →
  files w !! jd_fileUrl job = Some [] →
  ∃ w1 r1 jobId w2 r2,
    deliver job w = (Rejected (ErrorObj FILE_MESSAGES.NO_DATA_FOUND), w1)
    ∧ fileProcessing w1 !! jd_fileProcessingId job = Some r1
    ∧ status r1 = FAILED
    ∧ errorMessage r1 = Some FILE_MESSAGES.NO_DATA_FOUND
    ∧ processedData w1 = processedData w
    ∧ queue w1 = queue w
    ∧ FileController.retryFileProcessing (Some (userId r)) (jd_fileProcessingId job) w1
      = (Resolved (FileController.response_success jobId (jd_fileProcessingId job)), w2)
    ∧ fileProcessing w2 !! jd_fileProcessingId job = Some r2
    ∧ status r2 = PENDING
    ∧ errorMessage r2 = None.
Proof.
  intros Hf Hr Hfile.
  set (F := markFailed FILE_MESSAGES.NO_DATA_FOUND
              (markInProgress (default 0 (jd_retryCount job)) r)).
  assert (deliver job w
          = (Rejected (ErrorObj FILE_MESSAGES.NO_DATA_FOUND),
             set_fileProcessing (insert (jd_fileProcessingId job) F) w)) as Hd.
  { unfold deliver, attempts. cbn [Nat.sub redeliver]. unfold try_catch.
    rewrite (handleExcelJob_no_rows job w r) by done.
    erewrite handleExcelJob_no_rows; [|done|apply lookup_insert_eq|done].
    rewrite set_fileProcessing_twice.
    erewrite handleExcelJob_no_rows; [|done|apply lookup_insert_eq|done].
    by rewrite set_fileProcessing_twice. }
  eexists _, F, _, _, _. split; [exact Hd|].
  split; [apply lookup_insert_eq|]. repeat (split; [done|]).
  split.
  { apply (retry_quiet (userId r) _ _ F); [done|apply lookup_insert_eq|done|done]. }
  split; [apply lookup_insert_eq|]. done.
Qed.

Lemma exhausted_job_can_be_retried_witness :
  ∃ w1 r1 jobId w2 r2,
    deliver sampleJob (sampleWorld [] [])
    = (Rejected (ErrorObj FILE_MESSAGES.NO_DATA_FOUND), w1)
    ∧ fileProcessing w1 !! 7%Z = Some r1
    ∧ status r1 = FAILED
    ∧ errorMessage r1 = Some FILE_MESSAGES.NO_DATA_FOUND
    ∧ processedData w1 = []
    ∧ queue w1 = []
    ∧ FileController.retryFileProcessing (Some 1%Z) 7 w1
      = (Resolved (FileController.response_success jobId 7), w2)
    ∧ fileProcessing w2 !! 7%Z = Some r2
    ∧ status r2 = PENDING
    ∧ errorMessage r2 = None.
Proof.
  apply (exhausted_job_can_be_retried sampleJob (sampleWorld [] []) sampleRow);
    reflexivity.
Defined.

(** ** The status endpoint *)

Lemma call_effect_any {A} (f : World → Outcome A * World) w o w1 :
  (externalCall ;; effect f) w = (o, w1) →
  ∃ fs, (∃ e, o = Rejected e ∧ w1 = set_faults fs w)
        ∨ (o, w1) = f (set_faults fs w).
Proof.
  unfold mbind, Async_bind, effect. intros Hrun.
  destruct (externalCall w) as [[[]|e] w2] eqn:Hc;
    apply externalCall_frame in Hc as [fs ->]; exists fs.
  - by right.
  - injection Hrun as <- <-. left. eauto.
Qed.

Lemma findFirst_any id u w o w1 :
  prisma.fileProcessing_findFirst id u w = (o, w1) →
  ∃ fs, w1 = set_faults fs w
        ∧ (o = Resolved (prisma.whereIdUser id u w) ∨ ∃ e, o = Rejected e).
Proof.
  unfold prisma.fileProcessing_findFirst. intros Hrun.
  apply call_effect_any in Hrun as [fs [(e & -> & ->)|[= -> ->]]]; exists fs.
  - split; [done|]. right. eauto.
  - split; [done|]. by left.
Qed.

Lemma set_faults_twice fs1 fs2 w : set_faults fs2 (set_faults fs1 w) = set_faults fs2 w.
Proof. done. Qed.

Lemma status_quiet u id w :
  faults w = [] →
  Controller.getFileStatus (Some u) id w
  = (Resolved
       match prisma.whereIdUser id u w with
       | Some r => Controller.reply_success (Service.toDTO id r)
       | None => Controller.reply_error 404 FILE_MESSAGES.FILE_NOT_FOUND
       end, w).
Proof.
  intros Hf.
  unfold Controller.getFileStatus, try_catch, Service.getFileStatus,
    FileProcessingService.getFileStatus.
  erewrite bind_resolved.
  2: { erewrite bind_resolved by (by apply findFirst_quiet). reflexivity. }
  by destruct (prisma.whereIdUser id u w).
Qed.

(** X11: whatever the fault schedule, the status endpoint always answers, changes
    nothing in the store, the queue or on disk, and answers with a job's
    status only to the owner of the job: a success carries the DTO of the
    row with the requested id, whose userId is the caller's. *)
Theorem status_endpoint_is_private user id w o w' :
  Controller.getFileStatus user id w = (o, w') →
  (∃ fs, w' = set_faults fs w)
  ∧ ∃ reply,
      o = Resolved reply
      ∧ ∀ dto, reply = Controller.reply_success dto →
          ∃ r, fileProcessing w !! id = Some r
               ∧ user = Some (userId r)
               ∧ dto = Service.toDTO id r.
Proof.
  unfold Controller.getFileStatus, try_catch, Service.getFileStatus,
    FileProcessingService.getFileStatus.
  destruct user as [u|].
  2: { intros [= <- <-]. split; [exists (faults w); by destruct w|].
       eexists. split; [done|]. discriminate. }
  unfold mbind at 1, Async_bind at 1. unfold mbind at 1, Async_bind at 1.
  destruct (prisma.fileProcessing_findFirst id u w) as [o1 w1] eqn:Hfind.
  apply findFirst_any in Hfind as (fs & -> & [->|(e & ->)]).
  - destruct (prisma.whereIdUser id u w) as [r|] eqn:Hrow; intros [= <- <-];
      (split; [by exists fs|]); eexists; (split; [done|]).
    + intros dto [= <-]. apply whereIdUser_Some in Hrow as [Hr <-]. eauto.
    + discriminate.
  - intros [= <- <-]. split; [by exists fs|]. eexists. split; [done|].
    discriminate.
Qed.

Lemma status_endpoint_is_private_witness :
  let w := failedWorld failedRow in
  (∃ fs, (Controller.getFileStatus (Some 1%Z) 7 w).2 = set_faults fs w)
  ∧ ∃ reply,
      (Controller.getFileStatus (Some 1%Z) 7 w).1 = Resolved reply
      ∧ ∀ dto, reply = Controller.reply_success dto →
          ∃ r, fileProcessing w !! 7%Z = Some r
               ∧ Some 1%Z = Some (userId r)
               ∧ dto = Service.toDTO 7 r.
Proof.
  apply (status_endpoint_is_private (Some 1%Z) 7 (failedWorld failedRow)
           (Controller.getFileStatus (Some 1%Z) 7 (failedWorld failedRow)).1
           (Controller.getFileStatus (Some 1%Z) 7 (failedWorld failedRow)).2).
  vm_compute. reflexivity.
Defined.

(** X12: the status endpoint drops counts that are 0: after the worker has
    completed a sheet that holds only a header row (no call failing), the
    row holds totalRows 0 and processedRows 0, and the owner's status
    request answers COMPLETED with totalRows and processedRows absent. *)
Theorem status_hides_zero_counts job w r headers :
  faults w = [] →
  fileProcessing w !! jd_fileProcessingId job = Some r →
  files w !! jd_fileUrl job = Some [headers] →
  ∃ w1 r1 dto,
    handleExcelJob job w = (Resolved 0, w1)
    ∧ fileProcessing w1 !! jd_fileProcessingId job = Some r1
    ∧ totalRows r1 = Some 0
    ∧ processedRows r1 = Some 0
    ∧ Controller.getFileStatus (Some (userId r)) (jd_fileProcessingId job) w1
      = (Resolved (Controller.reply_success dto), w1)
    ∧ dto_status dto = COMPLETED
    ∧ dto_totalRows dto = None
    ∧ dto_processedRows dto = None.
Proof.
  intros Hf Hr Hfile.
  eexists _, _, _.
  split; [by apply (handleExcelJob_quiet job w r [headers])|].
  split; [apply lookup_insert_eq|]. split; [done|]. split; [done|].
  split.
  { rewrite status_quiet by done. unfold prisma.whereIdUser. simpl fileProcessing.
    rewrite lookup_insert_eq. simpl. by rewrite bool_decide_true. }
  done.
Qed.

Lemma status_hides_zero_counts_witness :
  ∃ w1 r1 dto,
    handleExcelJob sampleJob (sampleWorld headerOnlySheet []) = (Resolved 0, w1)
    ∧ fileProcessing w1 !! 7%Z = Some r1
    ∧ totalRows r1 = Some 0
    ∧ processedRows r1 = Some 0
    ∧ Controller.getFileStatus (Some 1%Z) 7 w1
      = (Resolved (Controller.reply_success dto), w1)
    ∧ dto_status dto = COMPLETED
    ∧ dto_totalRows dto = None
    ∧ dto_processedRows dto = None.
Proof.
  apply (status_hides_zero_counts sampleJob (sampleWorld headerOnlySheet [])
           sampleRow [JString "ID"; JString "Name"]); reflexivity.
Defined.

(** ** The records endpoint *)

Lemma findMany_quiet fm id skip n w :
  faults w = [] →
  store.processedData_findMany fm id skip n w = (fm id skip n (processedData w), w).
Proof.
  intros Hf. unfold store.processedData_findMany.
  by rewrite (bind_resolved _ _ _ _ _ (externalCall_quiet w Hf)).
Qed.

Lemma count_quiet id w :
  faults w = [] →
  store.processedData_count id w
  = (Resolved (length (filter (λ r, fileProcessingId r = id) (processedData w))), w).
Proof.
  intros Hf. unfold store.processedData_count.
  by rewrite (bind_resolved _ _ _ _ _ (externalCall_quiet w Hf)).
Qed.

Lemma whereIdUser_owner id w r :
  fileProcessing w !! id = Some r → prisma.whereIdUser id (userId r) w = Some r.
Proof. intros Hr. unfold prisma.whereIdUser. by rewrite Hr, bool_decide_true. Qed.

Lemma service_records_quiet fm orderBy id w r query :
  faults w = [] →
  fileProcessing w !! id = Some r →
  store.windowed fm orderBy →
  (1 ≤ orElse (q_page query) 1)%Z →
  (0 ≤ orElse (q_rows query) 50)%Z →
  Service.getProcessedData fm id (userId r) query w
  = (Resolved
       (take (Z.to_nat (Service.pageSize query))
          (drop (Z.to_nat ((orElse (q_page query) 1 - 1) * Service.pageSize query))
             (orderBy (filter (λ x, fileProcessingId x = id) (processedData w)))),
        length (filter (λ x, fileProcessingId x = id) (processedData w))), w).
Proof.
  intros Hf Hr [_ Hwin] Hpage Hrows. unfold Service.getProcessedData.
  erewrite bind_resolved by (by apply findFirst_quiet).
  rewrite (whereIdUser_owner _ _ _ Hr).
  erewrite bind_resolved.
  2: { rewrite findMany_quiet by done. rewrite Hwin; [done| |].
       - unfold Service.pageSize. nia.
       - unfold Service.pageSize. lia. }
  erewrite bind_resolved by (by apply count_quiet). done.
Qed.

(** X13: whatever the fault schedule and whatever the database answers, the
    records endpoint always answers, changes nothing in the store, the
    queue or on disk, and answers with records only to the owner of the
    job. *)
Theorem records_endpoint_is_private fm user id query w o w' :
  Controller.getProcessedData fm user id query w = (o, w') →
  (∃ fs, w' = set_faults fs w)
  ∧ ∃ reply,
      o = Resolved reply
      ∧ ∀ content, reply = Controller.reply_success content →
          ∃ r, fileProcessing w !! id = Some r ∧ user = Some (userId r).
Proof.
  unfold Controller.getProcessedData, try_catch, Service.getProcessedData.
  destruct user as [u|].
  2: { intros [= <- <-]. split; [exists (faults w); by destruct w|].
       eexists. split; [done|]. discriminate. }
  unfold mbind at 1, Async_bind at 1. unfold mbind at 1, Async_bind at 1.
  destruct (prisma.fileProcessing_findFirst id u w) as [o1 w1] eqn:Hfind.
  apply findFirst_any in Hfind as (fs & -> & [->|(e & ->)]).
  2: { intros [= <- <-]. split; [by exists fs|]. eexists. split; [done|].
       discriminate. }
  destruct (prisma.whereIdUser id u w) as [r|] eqn:Hrow.
  2: { intros [= <- <-]. split; [by exists fs|]. eexists. split; [done|].
       discriminate. }
  apply whereIdUser_Some in Hrow as [Hr <-].
  unfold mbind at 1, Async_bind at 1.
  match goal with
  | |- context [store.processedData_findMany ?a ?b ?c ?d ?w0] =>
      destruct (store.processedData_findMany a b c d w0) as [o2 w2] eqn:Hmany
  end.
  unfold store.processedData_findMany in Hmany.
  apply call_effect_any in Hmany as [fs2 [(e & -> & ->)|Hmany]].
  { intros [= <- <-]. split; [by exists fs2|]. eexists. split; [done|].
    discriminate. }
  injection Hmany as -> ->. rewrite set_faults_twice.
  destruct (fm id _ _ _) as [data|e].
  2: { intros [= <- <-]. split; [by exists fs2|]. eexists. split; [done|].
       discriminate. }
  unfold mbind at 1, Async_bind at 1.
  match goal with
  | |- context [store.processedData_count ?a ?w0] =>
      destruct (store.processedData_count a w0) as [o3 w3] eqn:Hcount
  end.
  unfold store.processedData_count in Hcount.
  apply call_effect_any in Hcount as [fs3 [(e & -> & ->)|Hcount]].
  { intros [= <- <-]. split; [by exists fs3|]. eexists. split; [done|].
    discriminate. }
  injection Hcount as -> ->. intros [= <- <-].
  split; [by exists fs3|]. eexists. split; [done|]. eauto.
Qed.

Lemma records_endpoint_is_private_witness :
  let w := failedWorld failedRow in
  let run :=
    Controller.getProcessedData sampleFindMany (Some 1%Z) 7
      (mkPageQuery None None) w in
  (∃ fs, run.2 = set_faults fs w)
  ∧ ∃ reply,
      run.1 = Resolved reply
      ∧ ∀ content, reply = Controller.reply_success content →
          ∃ r, fileProcessing w !! 7%Z = Some r ∧ Some 1%Z = Some (userId r).
Proof.
  apply (records_endpoint_is_private sampleFindMany (Some 1%Z) 7
           (mkPageQuery None None) (failedWorld failedRow)).
  apply surjective_pairing.
Defined.

(** X14: for a job that does not exist or belongs to someone else, the records
    endpoint answers 500 with the message 'File not found' (the service's
    error, passed on by the catch block), where the status endpoint answers
    404 with the same message (no call failing). *)
Theorem records_of_missing_file_answer_500 fm u id query w :
  faults w = [] →
  prisma.whereIdUser id u w = None →
  Controller.getProcessedData fm (Some u) id query w
  = (Resolved (Controller.reply_error 500 FILE_MESSAGES.FILE_NOT_FOUND), w)
  ∧ Controller.getFileStatus (Some u) id w
    = (Resolved (Controller.reply_error 404 FILE_MESSAGES.FILE_NOT_FOUND), w).
Proof.
  intros Hf Hrow. split.
  - unfold Controller.getProcessedData, try_catch, Service.getProcessedData.
    rewrite (bind_rejected _ _ w (ErrorObj FILE_MESSAGES.FILE_NOT_FOUND) w);
      [done|].
    erewrite bind_resolved by (by apply findFirst_quiet). by rewrite Hrow.
  - by rewrite status_quiet, Hrow.
Qed.

Lemma records_of_missing_file_answer_500_witness :
  Controller.getProcessedData sampleFindMany (Some 2%Z) 7 (mkPageQuery None None)
    (failedWorld failedRow)
  = (Resolved (Controller.reply_error 500 FILE_MESSAGES.FILE_NOT_FOUND),
     failedWorld failedRow)
  ∧ Controller.getFileStatus (Some 2%Z) 7 (failedWorld failedRow)
    = (Resolved (Controller.reply_error 404 FILE_MESSAGES.FILE_NOT_FOUND),
       failedWorld failedRow).
Proof.
  apply (records_of_missing_file_answer_500 sampleFindMany 2 7
           (mkPageQuery None None) (failedWorld failedRow)); reflexivity.
Defined.

Lemma orElse_positive n d : (0 < n)%Z → orElse (Some n) d = n.
Proof. by destruct n. Qed.

(** X15: one page of records: for the owner, with a page number of at least 1 and
    a size parameter that is not negative (no call failing), the endpoint
    answers the window of the ordered records of the job that starts after
    (page - 1) pages of min(rows, 1000) records; so no page holds more than
    1000 records.  The total is the number of records of the job, and the
    rows echoed in the pagination is the requested size, not the capped
    one. *)
Theorem records_page fm orderBy id w r query :
  faults w = [] →
  fileProcessing w !! id = Some r →
  store.windowed fm orderBy →
  (1 ≤ orElse (q_page query) 1)%Z →
  (0 ≤ orElse (q_rows query) 50)%Z →
  ∃ data,
    Controller.getProcessedData fm (Some (userId r)) id query w
    = (Resolved
         (Controller.reply_success
            (data,
             Controller.mkPagination
               (length (filter (λ x, fileProcessingId x = id) (processedData w)))
               (orElse (q_page query) 1) (orElse (q_rows query) 50))), w)
    ∧ data
      = take (Z.to_nat (Z.min (orElse (q_rows query) 50) 1000))
          (drop (Z.to_nat ((orElse (q_page query) 1 - 1)
                           * Z.min (orElse (q_rows query) 50) 1000))
             (orderBy (filter (λ x, fileProcessingId x = id) (processedData w))))
    ∧ (length data ≤ 1000)%nat
    ∧ (Z.of_nat (length data) ≤ orElse (q_rows query) 50)%Z.
Proof.
  intros Hf Hr Hwin Hpage Hrows. eexists. split; [|split; [reflexivity|]].
  - unfold Controller.getProcessedData, try_catch.
    erewrite bind_resolved by (by eapply service_records_quiet). done.
  - rewrite length_take. split; lia.
Qed.

Lemma records_page_witness :
  ∃ data,
    Controller.getProcessedData sampleFindMany (Some 1%Z) 7
      (mkPageQuery (Some 2%Z) (Some 1%Z)) (failedWorld failedRow)
    = (Resolved
         (Controller.reply_success (data, Controller.mkPagination 2 2 1)),
       failedWorld failedRow)
    ∧ data
      = take 1 (drop 1 (byRowNumber
                          (filter (λ x, fileProcessingId x = 7%Z)
                             (processedData (failedWorld failedRow)))))
    ∧ (length data ≤ 1000)%nat
    ∧ (Z.of_nat (length data) ≤ 1)%Z.
Proof.
  apply (records_page sampleFindMany byRowNumber 7 (failedWorld failedRow)
           failedRow (mkPageQuery (Some 2%Z) (Some 1%Z)));
    [reflexivity|reflexivity| |simpl; lia|simpl; lia].
  split; [apply merge_sort_Permutation|done].
Defined.

Lemma pages_take_drop {A} (l : list A) (s k : nat) :
  ∀ a,
    (seq (S a) k ≫= λ p, take s (drop ((p - 1) * s) l))
    = take (k * s) (drop (a * s) l).
Proof.
  induction k as [|k IH]; intros a; [done|].
  cbn [seq]. rewrite bind_cons, IH.
  replace ((S a - 1) * s) with (a * s) by lia.
  replace (S a * s) with (a * s + s) by lia.
  rewrite <- drop_drop, take_take_drop. f_equal; lia.
Qed.

(** X16: paging through the records: for the owner and a size parameter that is
    positive (no call failing), the pages 1, 2, ..., k put end to end are
    the first k * min(rows, 1000) of the ordered records of the job; once
    that reaches the total, they are all the records of the job, each
    exactly once. *)
Theorem records_pages_cover fm orderBy id w r rows k :
  faults w = [] →
  fileProcessing w !! id = Some r →
  store.windowed fm orderBy →
  (0 < orElse rows 50)%Z →
  (seq 1 k ≫= recordsOfPage fm id (userId r) rows w)
  = take (k * Z.to_nat (Z.min (orElse rows 50) 1000))
      (orderBy (filter (λ x, fileProcessingId x = id) (processedData w)))
  ∧ ((length (filter (λ x, fileProcessingId x = id) (processedData w))
      ≤ k * Z.to_nat (Z.min (orElse rows 50) 1000))%nat →
     (seq 1 k ≫= recordsOfPage fm id (userId r) rows w)
     ≡ₚ filter (λ x, fileProcessingId x = id) (processedData w)).
Proof.
  intros Hf Hr Hwin Hrows.
  set (s := Z.to_nat (Z.min (orElse rows 50) 1000)).
  set (all := orderBy (filter (λ x, fileProcessingId x = id) (processedData w))).
  assert (∀ page, (1 ≤ page)%nat →
            recordsOfPage fm id (userId r) rows w page
            = take s (drop ((page - 1) * s) all)) as Hpage.
  { intros page Hp. unfold recordsOfPage.
    assert (orElse (Some (Z.of_nat page)) 1 = Z.of_nat page) as Hnum
      by (apply orElse_positive; lia).
    rewrite (service_records_quiet fm orderBy); [|done|done|done|..].
    - cbn [fst q_page q_rows]. unfold Service.pageSize. cbn [q_rows].
      rewrite Hnum. fold all. fold s. do 2 f_equal. subst s. nia.
    - cbn [q_page]. rewrite Hnum. lia.
    - cbn [q_rows]. lia. }
  assert (∀ a, (seq (S a) k ≫= recordsOfPage fm id (userId r) rows w)
               = take (k * s) (drop (a * s) all)) as Hcat.
  { intros a. rewrite <- pages_take_drop. clear -Hpage. revert a.
    induction k as [|k IH]; intros a; [done|].
    cbn [seq]. rewrite !bind_cons, IH, Hpage by lia. done. }
  split.
  - by rewrite (Hcat 0), drop_0.
  - intros Hall. rewrite (Hcat 0), drop_0, take_ge.
    + apply Hwin.
    + subst all. destruct Hwin as [Hperm _]. by rewrite Hperm.
Qed.

Lemma records_pages_cover_witness :
  (seq 1 2 ≫= recordsOfPage sampleFindMany 7 1 (Some 1%Z) (failedWorld failedRow))
  = take (2 * 1)
      (byRowNumber (filter (λ x, fileProcessingId x = 7%Z)
                      (processedData (failedWorld failedRow))))
  ∧ ((length (filter (λ x, fileProcessingId x = 7%Z)
                (processedData (failedWorld failedRow))) ≤ 2 * 1)%nat →
     (seq 1 2 ≫= recordsOfPage sampleFindMany 7 1 (Some 1%Z) (failedWorld failedRow))
     ≡ₚ filter (λ x, fileProcessingId x = 7%Z)
          (processedData (failedWorld failedRow))).
Proof.
  apply (records_pages_cover sampleFindMany byRowNumber 7 (failedWorld failedRow)
           failedRow (Some 1%Z) 2); [reflexivity|reflexivity| |simpl; lia].
  split; [apply merge_sort_Permutation|done].
Defined.

(** ** The delete endpoint *)

Lemma findFirst_pass id u w w1 :
  externalCall w = (Resolved (), w1) →
  prisma.fileProcessing_findFirst id u w = (Resolved (prisma.whereIdUser id u w1), w1).
Proof. intros H. unfold prisma.fileProcessing_findFirst. by erewrite bind_resolved. Qed.

Lemma findFirst_fail id u w e w1 :
  externalCall w = (Rejected e, w1) →
  prisma.fileProcessing_findFirst id u w = (Rejected e, w1).
Proof. intros H. unfold prisma.fileProcessing_findFirst. by erewrite bind_rejected. Qed.

Lemma whereIdUser_set_faults id u fs w :
  prisma.whereIdUser id u (set_faults fs w) = prisma.whereIdUser id u w.
Proof. done. Qed.

Lemma whereIdUser_with_files id u fl w :
  prisma.whereIdUser id u (with_files fl w) = prisma.whereIdUser id u w.
Proof. done. Qed.

Lemma externalCall_with_files fl w o w1 :
  externalCall w = (o, w1) → externalCall (with_files fl w) = (o, with_files fl w1).
Proof.
  unfold externalCall. destruct w as [fp pd q fl0 fs ck]. simpl.
  destruct fs as [|[[|n] e] rest]; by intros [= <- <-].
Qed.

Lemma delete_pass id w w1 r :
  externalCall w = (Resolved (), w1) →
  fileProcessing w1 !! id = Some r →
  store.fileProcessing_delete id w
  = (Resolved (),
     mkWorld (delete id (fileProcessing w1))
       (filter (λ x, fileProcessingId x ≠ id) (processedData w1))
       (queue w1) (files w1) (faults w1) (clock w1)).
Proof.
  intros H Hr. unfold store.fileProcessing_delete.
  erewrite bind_resolved by exact H. unfold effect. by rewrite Hr.
Qed.

Lemma delete_fail id w e w1 :
  externalCall w = (Rejected e, w1) →
  store.fileProcessing_delete id w = (Rejected e, w1).
Proof. intros H. unfold store.fileProcessing_delete. by erewrite bind_rejected. Qed.

(** What the removal step of the service leaves to the rest of the method:
    the same world with the disk of [filesAfter]. *)
Lemma removal_then {B} t r w (k : Async B) :
  (Service.onDisk (fileUrl r)
     ≫= λ there : bool,
          (if there then Service.unlinkLogged t (fileUrl r) else mret ())
          ≫= λ _, k) w
  = k (with_files (filesAfter t r w) w).
Proof.
  unfold Service.onDisk, filesAfter, Service.unlinkLogged, try_catch,
    store.unlinkSync, store.existsSync, with_files, effect, mbind, Async_bind.
  destruct w as [fp pd q fl fs ck]. simpl.
  case_bool_decide as Hurl; simpl.
  - rewrite (bool_decide_false (fileUrl r = "")) by done. rewrite orb_false_r.
    case_bool_decide as Hthere; destruct t; try done.
    simpl. rewrite delete_id; [done|].
    destruct (fl !! fileUrl r) eqn:Hl; [|done]. destruct Hthere. eauto.
  - rewrite (bool_decide_true (fileUrl r = ""));
      [|by destruct (decide (fileUrl r = ""))].
    by rewrite orb_true_r.
Qed.

(** Every way the delete endpoint can go, for both behaviours of the
    removal at once. *)
Lemma deleteFile_shape user id w :
  ∃ fs,
    (∃ code message, ∀ t,
       Controller.deleteFile t user id w
       = (Resolved (Controller.reply_error code message), set_faults fs w))
    ∨ ∃ r,
        fileProcessing w !! id = Some r
        ∧ user = Some (userId r)
        ∧ ((∀ t,
              Controller.deleteFile t user id w
              = (Resolved (Controller.reply_error 500 "Internal server error"),
                 with_files (filesAfter t r w) (set_faults fs w)))
           ∨ (∀ t,
                Controller.deleteFile t user id w
                = (Resolved (Controller.reply_success ()),
                   mkWorld (delete id (fileProcessing w))
                     (filter (λ x, fileProcessingId x ≠ id) (processedData w))
                     (queue w) (filesAfter t r w) fs (clock w)))).
Proof.
  unfold Controller.deleteFile, try_catch, Service.getFileStatus,
    FileProcessingService.getFileStatus, Service.deleteFile.
  destruct user as [u|].
  2: { exists (faults w). left. eexists _, _. intros t. by destruct w. }
  destruct (externalCall w) as [[[]|e1] w1] eqn:H1;
    pose proof (externalCall_frame _ _ _ H1) as [fs1 ->].
  2: { exists fs1. left. eexists _, _. intros t.
       erewrite bind_rejected; [reflexivity|].
       erewrite bind_rejected; [reflexivity|]. by apply findFirst_fail. }
  destruct (prisma.whereIdUser id u w) as [r|] eqn:Hrow.
  2: { exists fs1. left. eexists _, _. intros t.
       erewrite bind_resolved.
       2: { erewrite bind_resolved by (by apply findFirst_pass). reflexivity. }
       rewrite whereIdUser_set_faults, Hrow. reflexivity. }
  pose proof (whereIdUser_Some _ _ _ _ Hrow) as [Hr <-].
  set (w1 := set_faults fs1 w) in *.
  destruct (externalCall w1) as [[[]|e2] w2] eqn:H2;
    pose proof (externalCall_frame _ _ _ H2) as [fs2 ->].
  2: { exists fs2. left. eexists _, _. intros t.
       erewrite bind_resolved.
       2: { erewrite bind_resolved by (by apply findFirst_pass). reflexivity. }
       subst w1. rewrite whereIdUser_set_faults, Hrow. cbn [fmap option_fmap option_map].
       erewrite bind_rejected; [reflexivity|].
       erewrite bind_rejected; [reflexivity|]. by apply findFirst_fail. }
  set (w2 := set_faults fs2 w1) in *.
  destruct (externalCall w2) as [[[]|e3] w3] eqn:H3;
    pose proof (externalCall_frame _ _ _ H3) as [fs3 ->];
    exists fs3; right; exists r; (split; [done|]); (split; [done|]);
    [right|left]; intros t;
    (erewrite bind_resolved;
     [|erewrite bind_resolved by (by apply findFirst_pass); reflexivity]);
    subst w1; rewrite whereIdUser_set_faults, Hrow;
    cbn [fmap option_fmap option_map].
  - erewrite bind_resolved; [reflexivity|].
    erewrite bind_resolved by (by apply findFirst_pass).
    subst w2. rewrite !whereIdUser_set_faults, Hrow.
    rewrite removal_then.
    erewrite delete_pass;
      [|by apply externalCall_with_files|by destruct w].
    by destruct w.
  - erewrite bind_rejected; [reflexivity|].
    erewrite bind_resolved by (by apply findFirst_pass).
    subst w2. rewrite !whereIdUser_set_faults, Hrow.
    rewrite removal_then.
    erewrite delete_fail; [|by apply externalCall_with_files]. by destruct w.
Qed.

(** X17: whatever the fault schedule, when the delete endpoint answers with a
    success, the caller owned the job, the job's row and all its records
    are gone, the rows and records of other jobs and the queue are left as
    they were, and the upload is off the disk unless its removal was refused
    or the row named no file. *)
Theorem delete_removes_job_and_records t user id w w' :
  Controller.deleteFile t user id w
  = (Resolved (Controller.reply_success ()), w') →
  ∃ r,
    fileProcessing w !! id = Some r
    ∧ user = Some (userId r)
    ∧ fileProcessing w' = delete id (fileProcessing w)
    ∧ processedData w' = filter (λ x, fileProcessingId x ≠ id) (processedData w)
    ∧ queue w' = queue w
    ∧ files w' = filesAfter t r w.
Proof.
  intros Hrun.
  destruct (deleteFile_shape user id w)
    as [fs [(code & msg & H)|(r & Hr & Hu & [H|H])]];
    rewrite (H t) in Hrun; [discriminate|discriminate|].
  injection Hrun as <-. exists r. by repeat split.
Qed.

Lemma delete_removes_job_and_records_witness :
  ∃ r,
    fileProcessing (failedWorld failedRow) !! 7%Z = Some r
    ∧ Some 1%Z = Some (userId r)
    ∧ fileProcessing (Controller.deleteFile false (Some 1%Z) 7 (failedWorld failedRow)).2
      = delete 7%Z (fileProcessing (failedWorld failedRow))
    ∧ processedData (Controller.deleteFile false (Some 1%Z) 7 (failedWorld failedRow)).2
      = filter (λ x, fileProcessingId x ≠ 7%Z) (processedData (failedWorld failedRow))
    ∧ queue (Controller.deleteFile false (Some 1%Z) 7 (failedWorld failedRow)).2
      = queue (failedWorld failedRow)
    ∧ files (Controller.deleteFile false (Some 1%Z) 7 (failedWorld failedRow)).2
      = filesAfter false r (failedWorld failedRow).
Proof.
  apply (delete_removes_job_and_records false (Some 1%Z) 7 (failedWorld failedRow)).
  vm_compute. reflexivity.
Defined.

(** X18: a refused removal of the upload does not block the deletion: whatever
    the fault schedule, the endpoint gives the same answer and leaves the
    same rows, records and queue whether [fs.unlinkSync] throws or not;
    when it throws, the disk is left as it was. *)
Theorem unlink_failure_does_not_block_deletion user id w :
  (Controller.deleteFile true user id w).1 = (Controller.deleteFile false user id w).1
  ∧ fileProcessing (Controller.deleteFile true user id w).2
    = fileProcessing (Controller.deleteFile false user id w).2
  ∧ processedData (Controller.deleteFile true user id w).2
    = processedData (Controller.deleteFile false user id w).2
  ∧ queue (Controller.deleteFile true user id w).2
    = queue (Controller.deleteFile false user id w).2
  ∧ files (Controller.deleteFile true user id w).2 = files w.
Proof.
  destruct (deleteFile_shape user id w)
    as [fs [(code & msg & H)|(r & Hr & Hu & [H|H])]];
    rewrite (H true), (H false); by repeat split.
Qed.

(** X19: whatever the fault schedule, a caller who does not own the job (or asks
    for a job that does not exist) gets an error from the delete endpoint,
    and nothing is changed: no row, no record, the queue and the disk
    neither. *)
Theorem delete_of_foreign_job_changes_nothing t user id w o w' :
  (∀ r, fileProcessing w !! id = Some r → user ≠ Some (userId r)) →
  Controller.deleteFile t user id w = (o, w') →
  ∃ code message fs,
    o = Resolved (Controller.reply_error code message) ∧ w' = set_faults fs w.
Proof.
  intros Hforeign Hrun.
  destruct (deleteFile_shape user id w)
    as [fs [(code & msg & H)|(r & Hr & Hu & _)]].
  - rewrite (H t) in Hrun. injection Hrun as <- <-. eauto.
  - by destruct (Hforeign r Hr).
Qed.

Lemma delete_of_foreign_job_changes_nothing_witness :
  ∃ code message fs,
    (Controller.deleteFile false (Some 2%Z) 7 (failedWorld failedRow)).1
    = Resolved (Controller.reply_error code message)
    ∧ (Controller.deleteFile false (Some 2%Z) 7 (failedWorld failedRow)).2
      = set_faults fs (failedWorld failedRow).
Proof.
  apply (delete_of_foreign_job_changes_nothing false (Some 2%Z) 7
           (failedWorld failedRow)).
  - intros r Hr. vm_compute in Hr. injection Hr as <-. discriminate.
  - apply surjective_pairing.
Defined.

Lemma delete_quiet t id w r :
  faults w = [] →
  fileProcessing w !! id = Some r →
  Controller.deleteFile t (Some (userId r)) id w
  = (Resolved (Controller.reply_success ()),
     mkWorld (delete id (fileProcessing w))
       (filter (λ x, fileProcessingId x ≠ id) (processedData w))
       (queue w) (filesAfter t r w) [] (clock w)).
Proof.
  intros Hf Hr.
  pose proof (whereIdUser_owner _ _ _ Hr) as Hrow.
  pose proof (externalCall_quiet w Hf) as Hc.
  unfold Controller.deleteFile, try_catch, Service.getFileStatus,
    FileProcessingService.getFileStatus, Service.deleteFile.
  erewrite bind_resolved.
  2: { erewrite bind_resolved by (by apply findFirst_pass). reflexivity. }
  rewrite Hrow. cbn [fmap option_fmap option_map].
  erewrite bind_resolved; [reflexivity|].
  erewrite bind_resolved by (by apply findFirst_pass). rewrite Hrow.
  rewrite removal_then.
  erewrite delete_pass; [|by apply externalCall_with_files|by destruct w].
  destruct w as [fp pd q fl fs ck]. simpl in Hf. by subst fs.
Qed.

Lemma update_missing_quiet id data w :
  faults w = [] →
  fileProcessing w !! id = None →
  prisma.fileProcessing_update id data w
  = (Rejected (ErrorObj "Record to update not found."), w).
Proof.
  intros Hf Hr. unfold prisma.fileProcessing_update.
  rewrite (bind_resolved _ _ _ _ _ (externalCall_quiet w Hf)).
  unfold effect. by rewrite Hr.
Qed.

(** X20: after the owner has deleted a job (no call failing), the job is gone
    for every later request: the status endpoint and the retry endpoint
    answer 404, and the worker, should the queue still hand it the job,
    rejects and leaves the store as it is: it does not bring the row or any
    record back. *)
Theorem deleted_job_is_gone t job w r :
  faults w = [] →
  fileProcessing w !! jd_fileProcessingId job = Some r →
  ∃ w1 e,
    Controller.deleteFile t (Some (userId r)) (jd_fileProcessingId job) w
    = (Resolved (Controller.reply_success ()), w1)
    ∧ fileProcessing w1 !! jd_fileProcessingId job = None
    ∧ Forall (λ x, fileProcessingId x ≠ jd_fileProcessingId job) (processedData w1)
    ∧ Controller.getFileStatus (Some (userId r)) (jd_fileProcessingId job) w1
      = (Resolved (Controller.reply_error 404 FILE_MESSAGES.FILE_NOT_FOUND), w1)
    ∧ FileController.retryFileProcessing (Some (userId r)) (jd_fileProcessingId job) w1
      = (Resolved (FileController.response_error 404 FILE_MESSAGES.FILE_NOT_FOUND), w1)
    ∧ handleExcelJob job w1 = (Rejected e, w1).
Proof.
  intros Hf Hr. set (id := jd_fileProcessingId job) in *.
  eexists _, _. split; [by apply delete_quiet|].
  set (w1 := mkWorld _ _ _ _ _ _).
  assert (fileProcessing w1 !! id = None) as Hgone by apply lookup_delete_eq.
  assert (prisma.whereIdUser id (userId r) w1 = None) as Hrow
    by (unfold prisma.whereIdUser; by rewrite Hgone).
  split; [done|]. split; [apply Forall_filter_self|]. split; [|split].
  - by rewrite status_quiet, Hrow.
  - unfold FileController.retryFileProcessing, try_catch,
      FileProcessingService.getFileStatus.
    erewrite bind_resolved by (by apply findFirst_quiet). by rewrite Hrow.
  - unfold handleExcelJob, try_catch, processExcel.
    erewrite bind_rejected by (by apply update_missing_quiet).
    unfold onFailure.
    erewrite bind_rejected by (by apply update_missing_quiet). done.
Qed.

Lemma deleted_job_is_gone_witness :
  ∃ w1 e,
    Controller.deleteFile false (Some 1%Z) 7 (failedWorld failedRow)
    = (Resolved (Controller.reply_success ()), w1)
    ∧ fileProcessing w1 !! 7%Z = None
    ∧ Forall (λ x, fileProcessingId x ≠ 7%Z) (processedData w1)
    ∧ Controller.getFileStatus (Some 1%Z) 7 w1
      = (Resolved (Controller.reply_error 404 FILE_MESSAGES.FILE_NOT_FOUND), w1)
    ∧ FileController.retryFileProcessing (Some 1%Z) 7 w1
      = (Resolved (FileController.response_error 404 FILE_MESSAGES.FILE_NOT_FOUND), w1)
    ∧ handleExcelJob sampleJob w1 = (Rejected e, w1).
Proof.
  apply (deleted_job_is_gone false sampleJob (failedWorld failedRow) failedRow);
    reflexivity.
Defined.

(** X21: the removal of the upload comes before the deletion of the row and is
    not undone: when the two lookups go through, the file is on record
    under a non-empty path and the database then refuses the deletion, the
    endpoint answers 500, the row and the records are still there, and the
    upload is off the disk. *)
Theorem failed_delete_still_removes_the_file id w r e :
  faults w = [(2, e)] →
  fileProcessing w !! id = Some r →
  fileUrl r ≠ "" →
  ∃ w',
    Controller.deleteFile false (Some (userId r)) id w
    = (Resolved (Controller.reply_error 500 "Internal server error"), w')
    ∧ fileProcessing w' = fileProcessing w
    ∧ processedData w' = processedData w
    ∧ files w' !! fileUrl r = None.
Proof.
  intros Hf Hr Hurl.
  pose proof (whereIdUser_owner _ _ _ Hr) as Hrow.
  unfold Controller.deleteFile, try_catch, Service.getFileStatus,
    FileProcessingService.getFileStatus, Service.deleteFile.
  erewrite bind_resolved.
  2: { erewrite bind_resolved;
         [|apply findFirst_pass; by apply externalCall_pass]. reflexivity. }
  rewrite whereIdUser_set_faults, Hrow. cbn [fmap option_fmap option_map].
  erewrite bind_rejected; [|].
  2: { erewrite bind_resolved;
         [|apply findFirst_pass; by apply externalCall_pass].
       rewrite !whereIdUser_set_faults, Hrow. rewrite removal_then.
       apply delete_fail. apply externalCall_with_files.
       by apply externalCall_fault. }
  eexists. split; [reflexivity|]. simpl. split; [done|]. split; [done|].
  unfold filesAfter. simpl. rewrite bool_decide_false by done.
  apply lookup_delete_eq.
Qed.

Lemma failed_delete_still_removes_the_file_witness :
  ∃ w',
    Controller.deleteFile false (Some 1%Z) 7
      (set_faults [(2, outage)] (failedWorld failedRow))
    = (Resolved (Controller.reply_error 500 "Internal server error"), w')
    ∧ fileProcessing w' = fileProcessing (failedWorld failedRow)
    ∧ processedData w' = processedData (failedWorld failedRow)
    ∧ files w' !! "upload.xlsx" = None.
Proof.
  apply (failed_delete_still_removes_the_file 7
           (set_faults [(2, outage)] (failedWorld failedRow)) failedRow outage);
    [reflexivity|reflexivity|discriminate].
Defined.

(** ** How many store calls a run makes *)

Lemma createMany_pass batch w n e rest :
  faults w = (S n, e) :: rest →
  prisma.processedData_createMany batch w
  = (Resolved (),
     set_processedData (λ t, t ++ batch) (set_faults ((n, e) :: rest) w)).
Proof.
  intros Hf. unfold prisma.processedData_createMany.
  by rewrite (bind_resolved _ _ _ _ _ (externalCall_pass w n e rest Hf)).
Qed.

Lemma createMany_fault batch w e rest :
  faults w = (0, e) :: rest →
  prisma.processedData_createMany batch w = (Rejected e, set_faults rest w).
Proof.
  intros Hf. unfold prisma.processedData_createMany.
  by rewrite (bind_rejected _ _ _ _ _ (externalCall_fault w e rest Hf)).
Qed.

(** The row loop with a budget of [k] calls before the failing one: it gets
    through when its [c] checkpoints fit in the budget. *)
Lemma rowLoop_budget id data e rowIndexes :
  ∀ c k acc cnt w r,
    faults w = [(k, e)] →
    fileProcessing w !! id = Some r →
    (10 * c ≤ cnt mod 10 + length rowIndexes < 10 * (c + 1))%nat →
    (c ≤ k)%nat →
    ∃ p, rowLoop id data (headerRow data) rowIndexes acc cnt w
         = (Resolved (acc ++ (rowIndexes ≫= rowRecords id data),
                      cnt + length rowIndexes),
            set_faults [(k - c, e)]
              (set_fileProcessing (insert id (withProcessedRows p r)) w)).
Proof.
  induction rowIndexes as [|i rest IH]; intros c k acc cnt w r Hf Hr Hc Hk.
  - cbn [length] in Hc. pose proof (Nat.mod_upper_bound cnt 10).
    assert (c = 0) as -> by lia.
    exists (processedRows r). simpl.
    rewrite app_nil_r, Nat.add_0_r, withProcessedRows_id, Nat.sub_0_r by done.
    rewrite <- Hf. by destruct w.
  - cbn [rowLoop length] in *. rewrite bind_cons, app_assoc, (colLoop_acc _ _ _ _ _ acc).
    fold (rowRecords id data i).
    replace (cnt + S (length rest)) with (S cnt + length rest) by lia.
    destruct (succ_mod_10 cnt) as [[Hten Hnine]|Hnext].
    + rewrite bool_decide_true by done.
      destruct c as [|c]; [lia|]. destruct k as [|k]; [lia|].
      erewrite bind_resolved by (by eapply update_pass).
      edestruct (IH c k (acc ++ rowRecords id data i) (S cnt)
                   (set_fileProcessing (insert id (setProcessedRows (S cnt) r))
                      (set_faults [(k, e)] w))
                   (setProcessedRows (S cnt) r)) as [p Hp].
      * done.
      * simpl. apply lookup_insert_eq.
      * lia.
      * lia.
      * exists p. rewrite Hp. destruct w as [fp pd q fl fs ck].
        unfold set_faults, set_fileProcessing. simpl.
        by rewrite insert_insert_eq.
    + rewrite bool_decide_false by lia.
      erewrite bind_resolved by reflexivity.
      apply (IH c k); [done|done|lia|done].
Qed.

Lemma batchLoop_budget records e starts :
  ∀ k w,
    faults w = [(k, e)] →
    batchLoop records starts w
    = if bool_decide (length starts ≤ k)%nat
      then (Resolved (),
            set_faults [(k - length starts, e)]
              (set_processedData
                 (λ t, t ++ (starts ≫= λ i, slice i (i + batchSize) records)) w))
      else (Rejected e,
            set_faults []
              (set_processedData
                 (λ t, t ++ (take k starts ≫= λ i, slice i (i + batchSize) records))
                 w)).
Proof.
  induction starts as [|i rest IH]; intros k w Hf.
  - simpl. rewrite Nat.sub_0_r, <- Hf. destruct w. unfold set_processedData.
    simpl. by rewrite app_nil_r.
  - cbn [batchLoop length]. destruct k as [|k].
    + rewrite bool_decide_false by lia.
      erewrite bind_rejected by (by apply createMany_fault).
      destruct w. unfold set_processedData. simpl. by rewrite app_nil_r.
    + erewrite bind_resolved by (by apply createMany_pass).
      rewrite (IH k) by done.
      destruct (decide (length rest ≤ k)%nat) as [Hle|Hgt].
      * rewrite !bool_decide_true by lia. rewrite bind_cons.
        destruct w. unfold set_processedData, set_faults. simpl.
        by rewrite app_assoc.
      * rewrite !bool_decide_false by lia. cbn [take]. rewrite bind_cons.
        destruct w. unfold set_processedData, set_faults. simpl.
        by rewrite app_assoc.
Qed.

Lemma handler_resolved job w n w1 :
  processExcel job w = (Resolved n, w1) → handleExcelJob job w = (Resolved n, w1).
Proof. intros H. unfold handleExcelJob, try_catch. by rewrite H. Qed.

Lemma handler_rejected job w e w1 r1 :
  processExcel job w = (Rejected e, w1) →
  faults w1 = [] →
  fileProcessing w1 !! jd_fileProcessingId job = Some r1 →
  handleExcelJob job w
  = (Rejected e,
     set_fileProcessing
       (insert (jd_fileProcessingId job) (markFailed (errorText e) r1)) w1).
Proof.
  intros H Hf Hr. unfold handleExcelJob, try_catch. rewrite H.
  unfold onFailure. by erewrite bind_resolved by (by apply update_quiet).
Qed.

(** X22: a run on a sheet with N data rows that yields R records makes
    3 + floor(N / 10) + ceil(R / 100) store calls (two status writes, a
    checkpoint every 10 rows, a batch insert per 100 records, the final
    write): when the first k store calls go through and the next one raises
    e, the run resolves if k is at least that number, and rejects with e
    otherwise. *)
Theorem store_calls_of_a_run job w r data k e :
  faults w = [(k, e)] →
  fileProcessing w !! jd_fileProcessingId job = Some r →
  files w !! jd_fileUrl job = Some data →
  data ≠ [] →
  ∃ w',
    handleExcelJob job w
    = (if bool_decide
            (3 + (length data - 1) / 10
             + (length (sheetRecords (jd_fileProcessingId job) data) + 99) / 100
             ≤ k)%nat
       then Resolved (length data - 1)
       else Rejected e, w').
Proof.
  intros Hf Hr Hfile Hdata.
  set (id := jd_fileProcessingId job) in *.
  set (N := length data - 1).
  set (rc := default 0 (jd_retryCount job)).
  pose proof (Nat.div_mod_eq N 10) as HN.
  pose proof (Nat.mod_upper_bound N 10) as HN'.
  assert (length (batchStarts (length (sheetRecords id data)))
          = (length (sheetRecords id data) + 99) / 100) as Hb.
  { unfold batchStarts. by rewrite length_fmap, length_seq. }
  set (b := (length (sheetRecords id data) + 99) / 100) in *.
  assert (length data ≠ 0) as Hlen by (by destruct data).
  destruct k as [|[|k]].
  - rewrite bool_decide_false by lia. eexists.
    eapply handler_rejected;
      [unfold processExcel; by erewrite bind_rejected by (by apply update_fault)
      |reflexivity|done].
  - rewrite bool_decide_false by lia. eexists.
    eapply handler_rejected;
      [unfold processExcel;
       erewrite bind_resolved by (by eapply update_pass);
       erewrite bind_resolved by (unfold readSheet; simpl; by rewrite Hfile);
       rewrite bool_decide_false by done;
       erewrite bind_rejected; [reflexivity|apply update_fault; reflexivity]
      |reflexivity|apply lookup_insert_eq].
  - assert (∃ w2 r2,
              faults w2 = [(k, e)] ∧ fileProcessing w2 !! id = Some r2 ∧
              processExcel job w
              = (rowLoop id data (headerRow data) (seq 1 N) [] 0
                   ≫= λ '(records, processedCount),
                        batchLoop records (batchStarts (length records)) ;;
                        now ← newDate ;
                        prisma.fileProcessing_update id
                          (markCompleted processedCount now) ;;
                        mret processedCount) w2) as (w2 & r2 & Hf2 & Hr2 & Hstart).
    { eexists _, _. split; [|split]; [| |unfold processExcel;
        erewrite bind_resolved by (by eapply update_pass);
        erewrite bind_resolved by (unfold readSheet; simpl; by rewrite Hfile);
        rewrite bool_decide_false by done;
        erewrite bind_resolved;
          [reflexivity
          |eapply update_pass; [reflexivity|apply lookup_insert_eq]]];
        [reflexivity|apply lookup_insert_eq]. }
    destruct (decide (N / 10 ≤ k)%nat) as [Hc|Hc].
    + edestruct (rowLoop_budget id data e (seq 1 N) (N / 10) k [] 0 w2) as [p Hp];
        [exact Hf2|exact Hr2| |done|].
      { rewrite length_seq. change (0 mod 10) with 0. lia. }
      rewrite length_seq in Hp. simpl app in Hp.
      change (0 + N)%nat with N in Hp.
      change (seq 1 N ≫= rowRecords id data) with (sheetRecords id data) in Hp.
      erewrite bind_resolved in Hstart by exact Hp.
      cbv beta iota in Hstart.
      pose proof (batchLoop_budget (sheetRecords id data) e
                    (batchStarts (length (sheetRecords id data)))
                    (k - N / 10)
                    (set_faults [(k - N / 10, e)]
                       (set_fileProcessing (insert id (withProcessedRows p r2)) w2))
                    eq_refl) as Hbatch.
      rewrite Hb in Hbatch.
      destruct (decide (b ≤ k - N / 10)%nat) as [Hbk|Hbk].
      * rewrite (bool_decide_true (b ≤ k - N / 10)%nat) in Hbatch by done.
        erewrite bind_resolved in Hstart by exact Hbatch.
        erewrite bind_resolved in Hstart by reflexivity.
        destruct (k - N / 10 - b)%nat as [|k'] eqn:Hk'.
        -- rewrite bool_decide_false by lia. eexists.
           eapply handler_rejected;
             [rewrite Hstart; erewrite bind_rejected;
                [reflexivity|apply update_fault; reflexivity]
             |reflexivity|apply lookup_insert_eq].
        -- rewrite bool_decide_true by lia. eexists. apply handler_resolved.
           rewrite Hstart. erewrite bind_resolved; [reflexivity|].
           eapply update_pass; [reflexivity|apply lookup_insert_eq].
      * rewrite (bool_decide_false (b ≤ k - N / 10)%nat) in Hbatch by done.
        erewrite bind_rejected in Hstart by exact Hbatch.
        rewrite bool_decide_false by lia. eexists.
        eapply handler_rejected; [exact Hstart|reflexivity|apply lookup_insert_eq].
    + rewrite bool_decide_false by lia.
      edestruct (rowLoop_checkpoint_fault id data e (seq 1 N) k [] 0 w2) as [p Hp];
        [exact Hf2|exact Hr2| |].
      { rewrite length_seq. change (0 mod 10) with 0. lia. }
      erewrite bind_rejected in Hstart by exact Hp. eexists.
      eapply handler_rejected; [exact Hstart|reflexivity|apply lookup_insert_eq].
Qed.

Lemma store_calls_of_a_run_witness :
  ∃ w',
    handleExcelJob sampleJob (sampleWorld tenRowSheet [(5, outage)])
    = (if bool_decide
            (3 + (length tenRowSheet - 1) / 10
             + (length (sheetRecords 7 tenRowSheet) + 99) / 100 ≤ 5)%nat
       then Resolved (length tenRowSheet - 1)
       else Rejected outage, w').
Proof.
  apply (store_calls_of_a_run sampleJob (sampleWorld tenRowSheet [(5, outage)])
           sampleRow tenRowSheet 5 outage);
    [reflexivity|reflexivity|reflexivity|discriminate].
Defined.
